(** * ReadingDaily scripture scraper: validator, checksum and extractor

    A shallow embedding of [scrapers/validator.py] and of the decision logic
    of [scrapers/usccb_scraper.py], with the properties of the written
    specification stated over it.

    Conventions of the embedding:
    - a Python [str] is the list of its code points ([pystr]); [len] is the
      length of that list, as in Python;
    - a Python [dict] is an association list in insertion order, keys being
      strings; the lists are meant with pairwise distinct keys, and lookup
      returns the first binding;
    - a Python value is a [pyval]; floats and user-defined objects are left
      out, [bytes] stands for the values [json.dumps] refuses; the recursion
      limit of the interpreter is not modelled;
    - code that can raise returns a [result];
    - [hashlib.md5], [json.dumps], [str.encode], [repr] and [re.sub] are
      written out and evaluate; the two tables of the Unicode database they
      would need for text outside ASCII (printable characters for [repr],
      case mapping for [str.lower]) are parameters;
    - the parsed page is reached through the BeautifulSoup calls of the
      scraper, gathered in the class [Soup]. *)

From Stdlib Require Import String Ascii DecimalString.
From Stdlib Require Import List NArith ZArith Bool Lia Sorted.
Import ListNotations.

Set Implicit Arguments.

(** ** Python strings *)

Module PyStr.

Definition pystr := list N.

(** A literal of the source, given by its ASCII text. *)
Definition lit (s : string) : pystr :=
  map N_of_ascii (list_ascii_of_string s).

Fixpoint eqb (a b : pystr) : bool :=
  match a, b with
  | [], [] => true
  | x :: a', y :: b' => N.eqb x y && eqb a' b'
  | _, _ => false
  end.

(** [s.startswith(p)] *)
Fixpoint startswith (p s : pystr) : bool :=
  match p, s with
  | [], _ => true
  | x :: p', y :: s' => N.eqb x y && startswith p' s'
  | _ :: _, [] => false
  end.

(** [needle in hay] *)
Fixpoint contains (needle hay : pystr) : bool :=
  startswith needle hay ||
  match hay with
  | [] => false
  | _ :: hay' => contains needle hay'
  end.

(** [sep.join(parts)] *)
Fixpoint join (sep : pystr) (parts : list pystr) : pystr :=
  match parts with
  | [] => []
  | [p] => p
  | p :: rest => p ++ sep ++ join sep rest
  end.

(** [str(n)] for a natural number, as an f-string prints [len(text)]. *)
Definition of_N (n : N) : pystr :=
  lit (NilEmpty.string_of_uint (N.to_uint n)).

(** [str(z)] for an integer. *)
Definition of_Z (z : Z) : pystr :=
  match z with
  | Zneg p => lit "-" ++ of_N (Npos p)
  | _ => of_N (Z.to_N z)
  end.

(** Comparison of strings by code points, as [sorted] compares dict keys. *)
Fixpoint leb (a b : pystr) : bool :=
  match a, b with
  | [], _ => true
  | _ :: _, [] => false
  | x :: a', y :: b' =>
      if N.ltb x y then true
      else if N.ltb y x then false
      else leb a' b'
  end.

End PyStr.

Import PyStr.

(** ** Python values *)

#[warnings="-register-all"]
Inductive pyval : Type :=
| PNone
| PBool (b : bool)
| PInt (z : Z)
| PStr (s : pystr)
| PBytes (b : list N)
| PList (l : list pyval)
| PDict (d : list (pystr * pyval)).

Definition pydict := list (pystr * pyval).

(** [d.get(k)]: [None] of the option type is "key absent". *)
Fixpoint dict_get (k : pystr) (d : pydict) : option pyval :=
  match d with
  | [] => None
  | (k', v) :: d' => if PyStr.eqb k' k then Some v else dict_get k d'
  end.

(** [k in d] on a dict. *)
Definition dict_has (k : pystr) (d : pydict) : bool :=
  match dict_get k d with Some _ => true | None => false end.

(** [d.get(k)] as a Python value: an absent key gives [None]. *)
Definition py_get (d : pydict) (k : pystr) : pyval :=
  match dict_get k d with Some v => v | None => PNone end.

(** Truth value of an object in a condition. *)
Definition truthy (v : pyval) : bool :=
  match v with
  | PNone => false
  | PBool b => b
  | PInt z => negb (Z.eqb z 0)
  | PStr s => match s with [] => false | _ => true end
  | PBytes b => match b with [] => false | _ => true end
  | PList l => match l with [] => false | _ => true end
  | PDict d => match d with [] => false | _ => true end
  end.

Definition is_str (v : pyval) : bool :=
  match v with PStr _ => true | _ => false end.

Definition is_dict (v : pyval) : bool :=
  match v with PDict _ => true | _ => false end.

(** ** Exceptions *)

Inductive exn : Type :=
| TypeError
| KeyError
| UnicodeEncodeError
| UnboundLocalError.

Inductive result (A : Type) : Type :=
| Ok (a : A)
| Raise (e : exn).

Arguments Ok {A} a.
Arguments Raise {A} e.

Definition bind {A B} (c : result A) (k : A -> result B) : result B :=
  match c with
  | Ok a => k a
  | Raise e => Raise e
  end.

Declare Scope py_scope.
Delimit Scope py_scope with py.
Notation "x <- c ;; k" := (bind c (fun x => k))
  (at level 61, c at next level, right associativity) : py_scope.
Open Scope py_scope.

(** [try: body  except: handler] with a handler that cannot raise. *)
Definition try_except {A} (body : result A) (handler : A) : result A :=
  match body with
  | Ok a => Ok a
  | Raise _ => Ok handler
  end.

(** A [for] loop whose body may raise, threading the loop state. *)
Fixpoint for_each {A S} (l : list A) (body : S -> A -> result S) (s : S)
  : result S :=
  match l with
  | [] => Ok s
  | x :: l' => s' <- body s x ;; for_each l' body s'
  end.

(** [key in container] for a string key: substring test on a string,
    membership on a list, key test on a dict, [TypeError] elsewhere. *)
Definition py_contains (container : pyval) (key : pystr) : result bool :=
  match container with
  | PDict d => Ok (dict_has key d)
  | PStr s => Ok (contains key s)
  | PList l =>
      Ok (existsb (fun v => match v with
                            | PStr s => PyStr.eqb s key
                            | _ => false
                            end) l)
  | PNone | PBool _ | PInt _ | PBytes _ => Raise TypeError
  end.

(** [container[key]] for a string key. *)
Definition py_getitem (container : pyval) (key : pystr) : result pyval :=
  match container with
  | PDict d =>
      match dict_get key d with
      | Some v => Ok v
      | None => Raise KeyError
      end
  | _ => Raise TypeError
  end.

(** [len(v)] *)
Definition py_len (v : pyval) : result N :=
  match v with
  | PStr s => Ok (N.of_nat (List.length s))
  | PBytes b => Ok (N.of_nat (List.length b))
  | PList l => Ok (N.of_nat (List.length l))
  | PDict d => Ok (N.of_nat (List.length d))
  | PNone | PBool _ | PInt _ => Raise TypeError
  end.

(** ** validator.py *)

Module Validator.

Definition section_fields : list pystr :=
  [lit "reference"; lit "citation"; lit "text"; lit "title"].

(** [validate_reading_section(section, name)] *)
Definition validate_reading_section (section : pyval) (name : pystr)
  : result (list pystr) :=
  errors <- for_each section_fields
    (fun errors field =>
       present <- py_contains section field ;;
       if negb present then
         Ok (errors ++ [name ++ lit ": Missing field '" ++ field ++ lit "'"])
       else
         v <- py_getitem section field ;;
         if negb (truthy v) then
           Ok (errors ++ [name ++ lit ": Field '" ++ field ++ lit "' is empty"])
         else Ok errors)
    [] ;;
  present <- py_contains section (lit "text") ;;
  if present then
    text <- py_getitem section (lit "text") ;;
    n <- py_len text ;;
    if N.ltb n 50 then
      Ok (errors ++
          [name ++ lit ": Text too short (" ++ of_N n ++ lit " chars)"])
    else Ok errors
  else Ok errors.

(** [validate_psalm_section(section)] *)
Definition validate_psalm_section (section : pyval) : result (list pystr) :=
  errors <- validate_reading_section section (lit "Psalm") ;;
  present <- py_contains section (lit "response") ;;
  if negb present then
    Ok (errors ++ [lit "Psalm: Missing 'response' field"])
  else
    v <- py_getitem section (lit "response") ;;
    if negb (truthy v) then Ok (errors ++ [lit "Psalm: Response is empty"])
    else Ok errors.

Definition required_fields : list pystr :=
  [lit "date"; lit "liturgicalDate"; lit "firstReading"; lit "gospel";
   lit "metadata"].

(** [validate_reading(reading)]: the accumulator [errors] is threaded
    through the seven blocks of the function in source order. *)
Definition validate_reading (reading : pydict) : result (bool * list pystr) :=
  let errors : list pystr := [] in
  (* required top-level fields *)
  let errors :=
    fold_left
      (fun errors field =>
         if negb (dict_has field reading) then
           errors ++ [lit "Missing required field: " ++ field]
         else errors)
      required_fields errors in
  (* date format *)
  errors <-
    (if dict_has (lit "date") reading then
       try_except
         (date_str <- py_getitem (PDict reading) (lit "date") ;;
          if negb (is_str date_str) then
            Ok (errors ++ [lit "Invalid date format (expected YYYY-MM-DD)"])
          else
            n <- py_len date_str ;;
            if negb (N.eqb n 10) then
              Ok (errors ++ [lit "Invalid date format (expected YYYY-MM-DD)"])
            else Ok errors)
         (errors ++ [lit "Invalid date value"])
     else Ok errors) ;;
  (* first reading *)
  errors <-
    (if dict_has (lit "firstReading") reading
        && truthy (py_get reading (lit "firstReading")) then
       sec <- validate_reading_section
                (py_get reading (lit "firstReading")) (lit "First Reading") ;;
       Ok (errors ++ sec)
     else Ok errors) ;;
  (* gospel *)
  errors <-
    (if dict_has (lit "gospel") reading
        && truthy (py_get reading (lit "gospel")) then
       sec <- validate_reading_section
                (py_get reading (lit "gospel")) (lit "Gospel") ;;
       Ok (errors ++ sec)
     else Ok (errors ++ [lit "Gospel reading is required but missing"])) ;;
  (* psalm *)
  errors <-
    (if dict_has (lit "psalm") reading
        && truthy (py_get reading (lit "psalm")) then
       sec <- validate_psalm_section (py_get reading (lit "psalm")) ;;
       Ok (errors ++ sec)
     else Ok errors) ;;
  (* second reading *)
  errors <-
    (if dict_has (lit "secondReading") reading
        && truthy (py_get reading (lit "secondReading")) then
       sec <- validate_reading_section
                (py_get reading (lit "secondReading")) (lit "Second Reading") ;;
       Ok (errors ++ sec)
     else Ok errors) ;;
  (* liturgical date *)
  let errors :=
    if dict_has (lit "liturgicalDate") reading then
      match py_get reading (lit "liturgicalDate") with
      | PDict liturgical =>
          let errors :=
            if negb (dict_has (lit "season") liturgical) then
              errors ++ [lit "liturgicalDate missing season"]
            else errors in
          if negb (dict_has (lit "dayOfWeek") liturgical) then
            errors ++ [lit "liturgicalDate missing dayOfWeek"]
          else errors
      | _ => errors ++ [lit "liturgicalDate must be an object"]
      end
    else errors in
  Ok (Nat.eqb (List.length errors) 0, errors).

End Validator.

(** ** hashlib.md5 (RFC 1321) on byte lists *)

Module MD5.

Local Open Scope N_scope.

Definition mask32 : N := 0xFFFFFFFF.

Definition add32 (a b : N) : N := N.land (a + b) mask32.

Definition not32 (a : N) : N := N.lxor a mask32.

Definition rotl32 (x c : N) : N :=
  N.land (N.lor (N.shiftl x c) (N.shiftr x (32 - c))) mask32.

(** [K i = floor (2^32 * abs (sin (i + 1)))] *)
Definition K : list N :=
  [ 0xd76aa478; 0xe8c7b756; 0x242070db; 0xc1bdceee;
    0xf57c0faf; 0x4787c62a; 0xa8304613; 0xfd469501;
    0x698098d8; 0x8b44f7af; 0xffff5bb1; 0x895cd7be;
    0x6b901122; 0xfd987193; 0xa679438e; 0x49b40821;
    0xf61e2562; 0xc040b340; 0x265e5a51; 0xe9b6c7aa;
    0xd62f105d; 0x02441453; 0xd8a1e681; 0xe7d3fbc8;
    0x21e1cde6; 0xc33707d6; 0xf4d50d87; 0x455a14ed;
    0xa9e3e905; 0xfcefa3f8; 0x676f02d9; 0x8d2a4c8a;
    0xfffa3942; 0x8771f681; 0x6d9d6122; 0xfde5380c;
    0xa4beea44; 0x4bdecfa9; 0xf6bb4b60; 0xbebfbc70;
    0x289b7ec6; 0xeaa127fa; 0xd4ef3085; 0x04881d05;
    0xd9d4d039; 0xe6db99e5; 0x1fa27cf8; 0xc4ac5665;
    0xf4292244; 0x432aff97; 0xab9423a7; 0xfc93a039;
    0x655b59c3; 0x8f0ccc92; 0xffeff47d; 0x85845dd1;
    0x6fa87e4f; 0xfe2ce6e0; 0xa3014314; 0x4e0811a1;
    0xf7537e82; 0xbd3af235; 0x2ad7d2bb; 0xeb86d391 ].

Definition shifts : list N :=
  [ 7; 12; 17; 22; 7; 12; 17; 22; 7; 12; 17; 22; 7; 12; 17; 22;
    5;  9; 14; 20; 5;  9; 14; 20; 5;  9; 14; 20; 5;  9; 14; 20;
    4; 11; 16; 23; 4; 11; 16; 23; 4; 11; 16; 23; 4; 11; 16; 23;
    6; 10; 15; 21; 6; 10; 15; 21; 6; 10; 15; 21; 6; 10; 15; 21 ].

Record state : Type := mkState { sA : N; sB : N; sC : N; sD : N }.

Definition init : state :=
  mkState 0x67452301 0xefcdab89 0x98badcfe 0x10325476.

(** The [j]-th little-endian 32-bit word of a 64-byte block. *)
Definition word (block : list N) (j : nat) : N :=
  nth (4 * j)%nat block 0
  + N.shiftl (nth (4 * j + 1)%nat block 0) 8
  + N.shiftl (nth (4 * j + 2)%nat block 0) 16
  + N.shiftl (nth (4 * j + 3)%nat block 0) 24.

Definition round (block : list N) (st : state) (i : nat) : state :=
  let '(mkState a b c d) := st in
  let '(f, g) :=
    if Nat.ltb i 16%nat then
      (N.lor (N.land b c) (N.land (not32 b) d), i)
    else if Nat.ltb i 32%nat then
      (N.lor (N.land d b) (N.land (not32 d) c), Nat.modulo (5 * i + 1)%nat 16%nat)
    else if Nat.ltb i 48%nat then
      (N.lxor b (N.lxor c d), Nat.modulo (3 * i + 5)%nat 16%nat)
    else
      (N.lxor c (N.lor b (not32 d)), Nat.modulo (7 * i)%nat 16%nat) in
  let f := add32 (add32 (add32 f a) (nth i K 0)) (word block g) in
  mkState d (add32 b (rotl32 f (nth i shifts 0))) b c.

Definition process_block (st : state) (block : list N) : state :=
  let '(mkState a b c d) := fold_left (round block) (seq 0%nat 64%nat) st in
  mkState (add32 (sA st) a) (add32 (sB st) b)
          (add32 (sC st) c) (add32 (sD st) d).

(** The [n] little-endian bytes of [x]. *)
Fixpoint le_bytes (n : nat) (x : N) : list N :=
  match n with
  | O => []
  | S n' => N.land x 0xFF :: le_bytes n' (N.shiftr x 8)
  end.

(** Padding: a one bit, zeros up to 56 modulo 64, the bit length on
    eight bytes. *)
Definition pad (msg : list N) : list N :=
  let len := List.length msg in
  let zeros := Nat.modulo (64 + 55 - Nat.modulo len 64%nat)%nat 64%nat in
  msg ++ [0x80] ++ repeat 0 zeros ++ le_bytes 8%nat (8 * N.of_nat len).

Fixpoint blocks (fuel : nat) (l : list N) : list (list N) :=
  match fuel, l with
  | O, _ | _, [] => []
  | S fuel', _ => firstn 64%nat l :: blocks fuel' (skipn 64%nat l)
  end.

Definition digest (msg : list N) : list N :=
  let padded := pad msg in
  let st := fold_left process_block (blocks (List.length padded) padded) init in
  le_bytes 4%nat (sA st) ++ le_bytes 4%nat (sB st)
  ++ le_bytes 4%nat (sC st) ++ le_bytes 4%nat (sD st).

Definition hex_digit (n : N) : N :=
  if N.ltb n 10 then 48 + n else 87 + n.

(** [hashlib.md5(msg).hexdigest()] *)
Definition hexdigest (msg : list N) : pystr :=
  flat_map (fun b => [hex_digit (N.shiftr b 4); hex_digit (N.land b 0xF)])
           (digest msg).

End MD5.

(** ** Library functions used by the checksum *)

Module PyLib.

Local Open Scope N_scope.

Definition hex_digits (width : nat) (n : N) : pystr :=
  rev (map MD5.hex_digit
           (map (fun i => N.land (N.shiftr n (4 * N.of_nat i)) 0xF)
                (seq 0%nat width))).

(** *** [json.dumps(v, sort_keys=True, ensure_ascii=False)] *)

(** One character inside a JSON string: quote, backslash and the control
    characters below U+0020 are escaped, everything else is kept. *)
Definition json_escape_char (c : N) : pystr :=
  if N.eqb c 34 then [92; 34]
  else if N.eqb c 92 then lit "\\"
  else if N.eqb c 8 then lit "\b"
  else if N.eqb c 12 then lit "\f"
  else if N.eqb c 10 then lit "\n"
  else if N.eqb c 13 then lit "\r"
  else if N.eqb c 9 then lit "\t"
  else if N.ltb c 32 then lit "\u" ++ hex_digits 4 c
  else [c].

Definition json_string (s : pystr) : pystr :=
  [34] ++ flat_map json_escape_char s ++ [34].

(** Stable insertion sort of dict items by key. *)
Fixpoint insert_item {V} (kv : pystr * V) (l : list (pystr * V))
  : list (pystr * V) :=
  match l with
  | [] => [kv]
  | kv' :: l' =>
      if PyStr.leb (fst kv) (fst kv') then kv :: l
      else kv' :: insert_item kv l'
  end.

Definition sort_items {V} (l : list (pystr * V)) : list (pystr * V) :=
  fold_right insert_item [] l.

(** The encoder raises [TypeError] on the first value it cannot encode;
    as that is the only exception it raises here, the values of a dict are
    encoded before the items are put in key order. *)
Fixpoint json_dumps (v : pyval) : result pystr :=
  let fix dumps_list (l : list pyval) : result (list pystr) :=
    match l with
    | [] => Ok []
    | x :: l' =>
        s <- json_dumps x ;; r <- dumps_list l' ;; Ok (s :: r)
    end in
  let fix dumps_items (d : list (pystr * pyval))
    : result (list (pystr * pystr)) :=
    match d with
    | [] => Ok []
    | (k, x) :: d' =>
        s <- json_dumps x ;; r <- dumps_items d' ;; Ok ((k, s) :: r)
    end in
  match v with
  | PNone => Ok (lit "null")
  | PBool true => Ok (lit "true")
  | PBool false => Ok (lit "false")
  | PInt z => Ok (of_Z z)
  | PStr s => Ok (json_string s)
  | PBytes _ => Raise TypeError
  | PList l =>
      items <- dumps_list l ;;
      Ok (lit "[" ++ join (lit ", ") items ++ lit "]")
  | PDict d =>
      items <- dumps_items d ;;
      Ok (lit "{"
          ++ join (lit ", ")
               (map (fun kv => json_string (fst kv) ++ lit ": " ++ snd kv)
                    (sort_items items))
          ++ lit "}")
  end.

(** *** [s.encode('utf-8')]

    Surrogate code points cannot be encoded.  Python strings hold code
    points below 0x110000; larger numbers are given four bytes here so that
    the function is defined on every list. *)
Definition is_surrogate (c : N) : bool :=
  N.leb 0xD800 c && N.leb c 0xDFFF.

Definition utf8_char (c : N) : result (list N) :=
  if N.ltb c 0x80 then Ok [c]
  else if N.ltb c 0x800 then
    Ok [N.lor 0xC0 (N.shiftr c 6); N.lor 0x80 (N.land c 0x3F)]
  else if N.ltb c 0x10000 then
    if is_surrogate c then Raise UnicodeEncodeError
    else Ok [N.lor 0xE0 (N.shiftr c 12);
             N.lor 0x80 (N.land (N.shiftr c 6) 0x3F);
             N.lor 0x80 (N.land c 0x3F)]
  else
    Ok [N.lor 0xF0 (N.land (N.shiftr c 18) 0x7);
        N.lor 0x80 (N.land (N.shiftr c 12) 0x3F);
        N.lor 0x80 (N.land (N.shiftr c 6) 0x3F);
        N.lor 0x80 (N.land c 0x3F)].

Fixpoint utf8_encode (s : pystr) : result (list N) :=
  match s with
  | [] => Ok []
  | c :: s' =>
      b <- utf8_char c ;; r <- utf8_encode s' ;; Ok (b ++ r)
  end.

(** Text without surrogate code points. *)
Definition encodable (s : pystr) : Prop :=
  Forall (fun c => is_surrogate c = false) s.

(** Values made of [None], booleans, integers, strings without surrogates,
    lists and dicts: the ones [json.dumps] and the encoding accept. *)
Fixpoint plain (v : pyval) : bool :=
  let fix plain_list (l : list pyval) : bool :=
    match l with
    | [] => true
    | x :: l' => plain x && plain_list l'
    end in
  let fix plain_items (d : list (pystr * pyval)) : bool :=
    match d with
    | [] => true
    | (k, x) :: d' =>
        forallb (fun c => negb (is_surrogate c)) k
        && plain x && plain_items d'
    end in
  match v with
  | PNone | PBool _ | PInt _ => true
  | PStr s => forallb (fun c => negb (is_surrogate c)) s
  | PBytes _ => false
  | PList l => plain_list l
  | PDict d => plain_items d
  end.

(** *** [repr] and [str] of a value

    Which code points from U+0080 up are printable is a table of the
    Unicode database; it is a parameter.  Surrogates are never printable. *)
Section Repr.

Variable unicode_isprintable : N -> bool.

Definition isprintable (c : N) : bool :=
  if N.ltb c 0x80 then N.leb 32 c && N.ltb c 0x7F
  else if is_surrogate c then false
  else unicode_isprintable c.

(** The quote that [repr] picks: a double quote when the text has a single
    quote and no double quote. *)
Definition repr_quote (s : list N) : N :=
  if existsb (N.eqb 39) s && negb (existsb (N.eqb 34) s) then 34 else 39.

Definition repr_str_char (quote c : N) : pystr :=
  if N.eqb c quote || N.eqb c 92 then [92; c]
  else if N.eqb c 9 then lit "\t"
  else if N.eqb c 10 then lit "\n"
  else if N.eqb c 13 then lit "\r"
  else if N.ltb c 32 || N.eqb c 0x7F then lit "\x" ++ hex_digits 2 c
  else if N.ltb c 0x7F then [c]
  else if isprintable c then [c]
  else if N.leb c 0xFF then lit "\x" ++ hex_digits 2 c
  else if N.leb c 0xFFFF then lit "\u" ++ hex_digits 4 c
  else lit "\U" ++ hex_digits 8 c.

Definition repr_str (s : pystr) : pystr :=
  let quote := repr_quote s in
  [quote] ++ flat_map (repr_str_char quote) s ++ [quote].

Definition repr_bytes_char (quote c : N) : pystr :=
  if N.eqb c quote || N.eqb c 92 then [92; c]
  else if N.eqb c 9 then lit "\t"
  else if N.eqb c 10 then lit "\n"
  else if N.eqb c 13 then lit "\r"
  else if N.ltb c 32 || N.leb 0x7F c then lit "\x" ++ hex_digits 2 c
  else [c].

Definition repr_bytes (b : list N) : pystr :=
  let quote := repr_quote b in
  lit "b" ++ [quote] ++ flat_map (repr_bytes_char quote) b ++ [quote].

Fixpoint py_repr (v : pyval) : pystr :=
  let fix repr_list (l : list pyval) : list pystr :=
    match l with
    | [] => []
    | x :: l' => py_repr x :: repr_list l'
    end in
  let fix repr_items (d : list (pystr * pyval)) : list pystr :=
    match d with
    | [] => []
    | (k, x) :: d' => (repr_str k ++ lit ": " ++ py_repr x) :: repr_items d'
    end in
  match v with
  | PNone => lit "None"
  | PBool true => lit "True"
  | PBool false => lit "False"
  | PInt z => of_Z z
  | PStr s => repr_str s
  | PBytes b => repr_bytes b
  | PList l => lit "[" ++ join (lit ", ") (repr_list l) ++ lit "]"
  | PDict d => lit "{" ++ join (lit ", ") (repr_items d) ++ lit "}"
  end.

(** [str(v)]: the text itself for a string, [repr] for the rest. *)
Definition py_str (v : pyval) : pystr :=
  match v with
  | PStr s => s
  | _ => py_repr v
  end.

End Repr.

End PyLib.

(** ** validator.py: the checksum *)

Module Checksum.

Import PyLib.

Definition content_fields : list pystr :=
  [lit "date"; lit "firstReading"; lit "psalm"; lit "secondReading";
   lit "gospel"].

(** The dict literal [content] of [calculate_checksum]; [reading.get(k)]
    is [None] for an absent key. *)
Definition content (reading : pydict) : pydict :=
  [ (lit "date", py_get reading (lit "date"));
    (lit "firstReading", py_get reading (lit "firstReading"));
    (lit "psalm", py_get reading (lit "psalm"));
    (lit "secondReading", py_get reading (lit "secondReading"));
    (lit "gospel", py_get reading (lit "gospel")) ].

(** Two records with the same values in the content fields. *)
Definition same_content (reading reading' : pydict) : Prop :=
  forall k, In k content_fields -> py_get reading k = py_get reading' k.

(** The body of the [try] block. *)
Definition canonical_checksum (reading : pydict) : result pystr :=
  json_str <- json_dumps (PDict (content reading)) ;;
  bytes <- utf8_encode json_str ;;
  Ok (MD5.hexdigest bytes).

Section WithUnicode.

Variable unicode_isprintable : N -> bool.

(** The [except Exception] handler: the hash of [str(reading)]. *)
Definition fallback_checksum (reading : pydict) : result pystr :=
  bytes <- utf8_encode (py_str unicode_isprintable (PDict reading)) ;;
  Ok (MD5.hexdigest bytes).

(** [calculate_checksum(reading)] *)
Definition calculate_checksum (reading : pydict) : result pystr :=
  match canonical_checksum reading with
  | Ok checksum => Ok checksum
  | Raise _ => fallback_checksum reading
  end.


End WithUnicode.

End Checksum.

(** ** usccb_scraper.py *)

Module Scraper.

Local Open Scope N_scope.

(** *** Text helpers *)

(** The characters that [\s] matches in a [str] pattern. *)
Definition is_space (c : N) : bool :=
  (N.leb 0x9 c && N.leb c 0xD) || (N.leb 0x1C c && N.leb c 0x20)
  || N.eqb c 0x85 || N.eqb c 0xA0 || N.eqb c 0x1680
  || (N.leb 0x2000 c && N.leb c 0x200A)
  || N.eqb c 0x2028 || N.eqb c 0x2029 || N.eqb c 0x202F
  || N.eqb c 0x205F || N.eqb c 0x3000.

(** [re.sub(r'\s+', ' ', text)]: [in_run] tells that the previous
    character was white space, already replaced. *)
Fixpoint sub_spaces (in_run : bool) (text : pystr) : pystr :=
  match text with
  | [] => []
  | c :: text' =>
      if is_space c then
        if in_run then sub_spaces true text'
        else 32 :: sub_spaces true text'
      else c :: sub_spaces false text'
  end.

Definition normalize_whitespace (text : pystr) : pystr :=
  sub_spaces false text.

Definition is_empty (s : pystr) : bool :=
  match s with [] => true | _ => false end.

Definition paragraph_sep : pystr := [10; 10].

(** The two response markers: ['R.'] and the response sign U+211F
    followed by a period. *)
Definition marker_r : pystr := lit "R.".
Definition marker_response : pystr := [0x211F; 46].

Definition is_response (text : pystr) : bool :=
  startswith marker_r text || startswith marker_response text.

Fixpoint last_opt {A} (l : list A) : option A :=
  match l with
  | [] => None
  | [x] => Some x
  | _ :: l' => last_opt l'
  end.

(** *** The parsed page

    The scraper reaches the page through these calls of BeautifulSoup
    only.  A tag is always true in a condition, so [if not section] tests
    for [None]. *)

Inductive heading : Type :=
| ReadingTwo          (* re.compile(r'(Reading 2|Second Reading)', re.I) *)
| GospelHeading       (* re.compile('Gospel', re.I) *)
| PsalmHeading.       (* re.compile('Responsorial Psalm', re.I) *)

Class Soup (tag : Type) : Type := {
  (* t.find('div', class_='content-body') *)
  find_content_body : tag -> option tag;
  (* t.find_all('div', class_='content-body') *)
  find_all_content_body : tag -> list tag;
  (* t.find('h3', string=pattern) *)
  find_h3 : heading -> tag -> option tag;
  (* t.find_next('div', class_='content-body') *)
  find_next_content_body : tag -> option tag;
  (* t.find_previous('div', class_='address') *)
  find_previous_address : tag -> option tag;
  (* t.find_all('p') *)
  find_all_p : tag -> list tag;
  (* t.get_text(strip=True) *)
  get_text : tag -> pystr;
  (* t.get_text(separator=' ', strip=True) *)
  get_text_sep : tag -> pystr
}.

Section Extract.

Context {tag : Type} `{Soup tag}.

(** The citation of a located section. *)
Definition citation_of (section : tag) : pystr :=
  match find_previous_address section with
  | Some citation_elem => get_text citation_elem
  | None => []
  end.

(** The section of a reading type.  An unknown [reading_type] leaves
    [section] unbound; the early [return None] of the second reading is
    the same result as the test [if not section] that follows. *)
Definition locate_section (soup : tag) (reading_type : pystr)
  : result (option tag) :=
  if PyStr.eqb reading_type (lit "first") then
    Ok (find_content_body soup)
  else if PyStr.eqb reading_type (lit "second") then
    match find_h3 ReadingTwo soup with
    | None => Ok None
    | Some section => Ok (find_next_content_body section)
    end
  else if PyStr.eqb reading_type (lit "gospel") then
    match find_h3 GospelHeading soup with
    | Some section => Ok (find_next_content_body section)
    | None => Ok (last_opt (find_all_content_body soup))
    end
  else Raise UnboundLocalError.

(** The paragraph loop of [_extract_reading]. *)
Definition reading_parts (paragraphs : list tag) : list pystr :=
  fold_left
    (fun text_parts p =>
       let text := normalize_whitespace (get_text_sep p) in
       if negb (is_empty text) then text_parts ++ [text] else text_parts)
    paragraphs [].

Definition reading_title (reading_type : pystr) : pystr :=
  if PyStr.eqb reading_type (lit "first") then lit "First Reading"
  else if PyStr.eqb reading_type (lit "second") then lit "Second Reading"
  else lit "Gospel".

(** The body of the [try] block of [_extract_reading]. *)
Definition extract_reading_body (soup : tag) (reading_type : pystr)
  : result (option pyval) :=
  section <- locate_section soup reading_type ;;
  match section with
  | None => Ok None
  | Some section =>
      let citation := citation_of section in
      let text_parts := reading_parts (find_all_p section) in
      let full_text := join paragraph_sep text_parts in
      if is_empty full_text then Ok None
      else
        Ok (Some (PDict
          [ (lit "reference", PStr citation);
            (lit "citation", PStr citation);
            (lit "text", PStr full_text);
            (lit "title", PStr (reading_title reading_type));
            (lit "audioUrl", PNone) ]))
  end.

(** [_extract_reading(soup, reading_type)]: any exception gives [None]. *)
Definition _extract_reading (soup : tag) (reading_type : pystr)
  : option pyval :=
  match extract_reading_body soup reading_type with
  | Ok r => r
  | Raise _ => None
  end.

(** One turn of the paragraph loop of [_extract_psalm] on the normalized
    text of a paragraph; the state is [(response, text_parts)]. *)
Definition psalm_step (st : pystr * list pystr) (text : pystr)
  : pystr * list pystr :=
  let '(response, text_parts) := st in
  if is_response text then
    ((if is_empty response then text else response), text_parts ++ [text])
  else if negb (is_empty text) then (response, text_parts ++ [text])
  else (response, text_parts).

Definition psalm_scan (texts : list pystr) : pystr * list pystr :=
  fold_left psalm_step texts ([], []).

Definition paragraph_texts (section : tag) : list pystr :=
  map (fun p => normalize_whitespace (get_text_sep p)) (find_all_p section).

(** [_extract_psalm(soup)] *)
Definition _extract_psalm (soup : tag) : option pyval :=
  match find_h3 PsalmHeading soup with
  | None => None
  | Some psalm_header =>
      match find_next_content_body psalm_header with
      | None => None
      | Some section =>
          let citation := citation_of section in
          let '(response, text_parts) :=
            psalm_scan (paragraph_texts section) in
          let full_text := join paragraph_sep text_parts in
          Some (PDict
            [ (lit "reference", PStr citation);
              (lit "citation", PStr citation);
              (lit "text", PStr full_text);
              (lit "response", PStr response);
              (lit "title", PStr (lit "Responsorial Psalm"));
              (lit "audioUrl", PNone) ])
      end
  end.

End Extract.

(** The first text that begins with a response marker, or the empty
    string when there is none. *)
Definition first_response (texts : list pystr) : pystr :=
  match find is_response texts with
  | Some text => text
  | None => []
  end.

Definition nonempty (text : pystr) : bool := negb (is_empty text).

(** *** Season and colour *)

Definition ascii_lower (c : N) : N :=
  if N.leb 65 c && N.leb c 90 then c + 32 else c.

Record date : Type := mkDate { year : Z; month : Z; day : Z }.

Section Liturgical.

(** [str.lower] on text with characters from U+0080 up follows the case
    tables of the Unicode database; it is a parameter. *)
Variable unicode_lower : pystr -> pystr.

Definition lower (s : pystr) : pystr :=
  if forallb (fun c => N.ltb c 0x80) s then map ascii_lower s
  else unicode_lower s.

(** [_determine_season(liturgical_title, date)] *)
Definition _determine_season (liturgical_title : pystr) (d : date) : pystr :=
  let title_lower := lower liturgical_title in
  if contains (lit "advent") title_lower then lit "Advent"
  else if contains (lit "christmas") title_lower then lit "Christmas"
  else if contains (lit "lent") title_lower
          || contains (lit "ash wednesday") title_lower then lit "Lent"
  else if contains (lit "easter") title_lower then lit "Easter"
  else if contains (lit "ordinary time") title_lower then lit "Ordinary Time"
  else
    let month := month d in
    if Z.eqb month 11 || Z.eqb month 12 then lit "Advent"
    else if Z.eqb month 1 then lit "Christmas"
    else if Z.eqb month 2 || Z.eqb month 3 then lit "Lent"
    else if Z.eqb month 4 then lit "Easter"
    else lit "Ordinary Time".

Definition season_colors : list (pystr * pystr) :=
  [ (lit "Advent", lit "purple");
    (lit "Christmas", lit "white");
    (lit "Lent", lit "purple");
    (lit "Easter", lit "white");
    (lit "Ordinary Time", lit "green") ].

(** [table.get(key, default)] *)
Fixpoint get_default (table : list (pystr * pystr)) (key default : pystr)
  : pystr :=
  match table with
  | [] => default
  | (k, v) :: table' =>
      if PyStr.eqb k key then v else get_default table' key default
  end.

(** [_get_liturgical_color(season, feast_day)]; [feast_day] is [None] or
    a string, and the empty string is false in the condition. *)
Definition _get_liturgical_color (season : pystr) (feast_day : option pystr)
  : pystr :=
  let feast :=
    match feast_day with
    | Some f =>
        negb (is_empty f)
        && (contains (lit "mary") (lower f)
            || contains (lit "virgin") (lower f))
    | None => false
    end in
  if feast then lit "white"
  else get_default season_colors season (lit "green").

End Liturgical.

End Scraper.

(** ** A page as a flat sequence of elements

    An instance of the page interface: the page is the sequence, in
    document order, of its [h3] headings, its [div.address] lines and its
    [div.content-body] blocks with the text of their paragraphs.  A tag is
    the root or one element together with what precedes it (nearest first)
    and what follows it. *)

Module FlatPage.

Import Scraper.

Inductive element : Type :=
| H3 (text : pystr)
| Address (text : pystr)
| ContentBody (paragraphs : list pystr).

Inductive ptag : Type :=
| Root (doc : list element)
| Elem (before : list element) (e : element) (after : list element)
| Para (text : pystr).

Definition is_content_body (e : element) : bool :=
  match e with ContentBody _ => true | _ => false end.

Definition is_address (e : element) : bool :=
  match e with Address _ => true | _ => false end.

(** Case-insensitive search of the heading pattern, on ASCII letters. *)
Definition matches (h : heading) (e : element) : bool :=
  match e with
  | H3 text =>
      let t := map ascii_lower text in
      match h with
      | ReadingTwo =>
          contains (lit "reading 2") t || contains (lit "second reading") t
      | GospelHeading => contains (lit "gospel") t
      | PsalmHeading => contains (lit "responsorial psalm") t
      end
  | _ => false
  end.

Fixpoint find_forward (pred : element -> bool)
    (before after : list element) : option ptag :=
  match after with
  | [] => None
  | e :: after' =>
      if pred e then Some (Elem before e after')
      else find_forward pred (e :: before) after'
  end.

Fixpoint find_all_forward (pred : element -> bool)
    (before after : list element) : list ptag :=
  match after with
  | [] => []
  | e :: after' =>
      (if pred e then [Elem before e after'] else [])
      ++ find_all_forward pred (e :: before) after'
  end.

Fixpoint find_backward (pred : element -> bool)
    (before after : list element) : option ptag :=
  match before with
  | [] => None
  | e :: before' =>
      if pred e then Some (Elem before' e after)
      else find_backward pred before' (e :: after)
  end.

Definition text_of (t : ptag) : pystr :=
  match t with
  | Elem _ (H3 text) _ | Elem _ (Address text) _ | Para text => text
  | Elem _ (ContentBody paragraphs) _ => List.concat paragraphs
  | Root _ => []
  end.

#[export] Instance flat_soup : Soup ptag := {
  find_content_body t :=
    match t with
    | Root doc => find_forward is_content_body [] doc
    | _ => None
    end;
  find_all_content_body t :=
    match t with
    | Root doc => find_all_forward is_content_body [] doc
    | _ => []
    end;
  find_h3 h t :=
    match t with
    | Root doc => find_forward (matches h) [] doc
    | _ => None
    end;
  find_next_content_body t :=
    match t with
    | Elem before e after => find_forward is_content_body (e :: before) after
    | _ => None
    end;
  find_previous_address t :=
    match t with
    | Elem before e after => find_backward is_address before (e :: after)
    | _ => None
    end;
  find_all_p t :=
    match t with
    | Elem _ (ContentBody paragraphs) _ => map Para paragraphs
    | _ => []
    end;
  get_text := text_of;
  get_text_sep := text_of
}.

End FlatPage.

(** ** The traversal order of the validator, block by block

    The messages that each block of [validate_reading] contributes, written
    as functions of the record, and the rank of a message in the order
    top level, first reading, gospel, psalm, second reading,
    liturgicalDate. *)

Module Traversal.

Import Validator.

Definition invalid_date_format : pystr :=
  lit "Invalid date format (expected YYYY-MM-DD)".

Definition gospel_missing : pystr :=
  lit "Gospel reading is required but missing".

Definition missing_field_errors (reading : pydict) : list pystr :=
  flat_map
    (fun field =>
       if dict_has field reading then []
       else [lit "Missing required field: " ++ field])
    required_fields.

Definition date_errors (reading : pydict) : list pystr :=
  match dict_get (lit "date") reading with
  | None => []
  | Some (PStr s) =>
      if Nat.eqb (List.length s) 10 then [] else [invalid_date_format]
  | Some _ => [invalid_date_format]
  end.

(** The messages of the field loop of [validate_reading_section] on a
    dict. *)
Definition field_errors (section : pydict) (name : pystr) : list pystr :=
  flat_map
    (fun field =>
       match dict_get field section with
       | None => [name ++ lit ": Missing field '" ++ field ++ lit "'"]
       | Some v =>
           if truthy v then []
           else [name ++ lit ": Field '" ++ field ++ lit "' is empty"]
       end)
    section_fields.

(** The message about a text of [n] characters. *)
Definition too_short (name : pystr) (n : N) : pystr :=
  name ++ lit ": Text too short (" ++ of_N n ++ lit " chars)".

(** An optional section: validated when present and true. *)
Definition section_errors (key name : pystr) (reading : pydict)
  : result (list pystr) :=
  match dict_get key reading with
  | Some v => if truthy v then validate_reading_section v name else Ok []
  | None => Ok []
  end.

Definition gospel_errors (reading : pydict) : result (list pystr) :=
  match dict_get (lit "gospel") reading with
  | Some v =>
      if truthy v then validate_reading_section v (lit "Gospel")
      else Ok [gospel_missing]
  | None => Ok [gospel_missing]
  end.

Definition psalm_errors (reading : pydict) : result (list pystr) :=
  match dict_get (lit "psalm") reading with
  | Some v => if truthy v then validate_psalm_section v else Ok []
  | None => Ok []
  end.

Definition liturgical_errors (reading : pydict) : list pystr :=
  match dict_get (lit "liturgicalDate") reading with
  | None => []
  | Some (PDict liturgical) =>
      (if dict_has (lit "season") liturgical then []
       else [lit "liturgicalDate missing season"])
      ++ (if dict_has (lit "dayOfWeek") liturgical then []
          else [lit "liturgicalDate missing dayOfWeek"])
  | Some _ => [lit "liturgicalDate must be an object"]
  end.

(** The result of the validator as the concatenation of its blocks. *)
Definition in_order (reading : pydict) : result (bool * list pystr) :=
  first <- section_errors (lit "firstReading") (lit "First Reading") reading ;;
  gospel <- gospel_errors reading ;;
  psalm <- psalm_errors reading ;;
  second <-
    section_errors (lit "secondReading") (lit "Second Reading") reading ;;
  let errors :=
    (missing_field_errors reading ++ date_errors reading)
    ++ first ++ gospel ++ psalm ++ second ++ liturgical_errors reading in
  Ok (match errors with [] => true | _ => false end, errors).

(** Values that have a length. *)
Definition sized (v : pyval) : bool :=
  match v with
  | PStr _ | PBytes _ | PList _ | PDict _ => true
  | PNone | PBool _ | PInt _ => false
  end.

(** A section value on which the section checks cannot raise: a false
    value, or a dict whose text, when it is there, has a length. *)
Definition shaped_section (v : pyval) : bool :=
  match v with
  | PDict d =>
      match dict_get (lit "text") d with
      | Some text => sized text
      | None => true
      end
  | _ => negb (truthy v)
  end.

Definition shaped_record (reading : pydict) : bool :=
  forallb (fun key => shaped_section (py_get reading key))
    [lit "firstReading"; lit "gospel"; lit "psalm"; lit "secondReading"].

(** The part of the record a message is about, read off its first words. *)
Definition rank (msg : pystr) : nat :=
  if startswith (lit "First Reading: ") msg then 1
  else if startswith (lit "Gospel") msg then 2
  else if startswith (lit "Psalm: ") msg then 3
  else if startswith (lit "Second Reading: ") msg then 4
  else if startswith (lit "liturgicalDate ") msg then 5
  else 0.

End Traversal.

(** ** Records and pages used as examples *)

Module Examples.

Import Scraper FlatPage.

Definition sample_text : pystr :=
  lit "Jesus said to his disciples: Ask and it will be given to you.".

Definition section_of (citation text title : pystr) : pyval :=
  PDict [ (lit "reference", PStr citation);
          (lit "citation", PStr citation);
          (lit "text", PStr text);
          (lit "title", PStr title);
          (lit "audioUrl", PNone) ].

Definition liturgical_of (season : pystr) : pyval :=
  PDict [ (lit "season", PStr season);
          (lit "dayOfWeek", PStr (lit "Wednesday")) ].

(** A complete weekday record. *)
Definition record_of (gospel metadata : pyval) : pydict :=
  [ (lit "date", PStr (lit "2025-10-01"));
    (lit "liturgicalDate", liturgical_of (lit "Ordinary Time"));
    (lit "firstReading",
       section_of (lit "Neh 2:1-8") sample_text (lit "First Reading"));
    (lit "psalm", PNone);
    (lit "secondReading", PNone);
    (lit "gospel", gospel);
    (lit "metadata", metadata) ].

Definition source_of (url : pystr) : pyval :=
  PDict [ (lit "source", PStr (lit "USCCB")); (lit "sourceUrl", PStr url) ].

Definition good_gospel : pyval :=
  section_of (lit "Luke 9:57-62") sample_text (lit "Gospel").

Definition url_a : pystr := lit "https://bible.usccb.org/100125.cfm".
Definition url_b : pystr := lit "https://mirror.example/100125.cfm".

Definition record_a : pydict := record_of good_gospel (source_of url_a).
Definition record_b : pydict := record_of good_gospel (source_of url_b).

(** The same record with the gospel text held as [bytes]. *)
Definition bytes_gospel : pyval :=
  PDict [ (lit "reference", PStr (lit "Luke 9:57-62"));
          (lit "citation", PStr (lit "Luke 9:57-62"));
          (lit "text", PBytes sample_text);
          (lit "title", PStr (lit "Gospel"));
          (lit "audioUrl", PNone) ].

Definition bytes_record_a : pydict := record_of bytes_gospel (source_of url_a).
Definition bytes_record_b : pydict := record_of bytes_gospel (source_of url_b).

(** The same record with a gospel whose text is [None]. *)
Definition null_text_gospel : pyval :=
  PDict [ (lit "reference", PStr (lit "Luke 9:57-62"));
          (lit "citation", PStr (lit "Luke 9:57-62"));
          (lit "text", PNone);
          (lit "title", PStr (lit "Gospel"));
          (lit "audioUrl", PNone) ].

Definition null_text_record : pydict :=
  record_of null_text_gospel (source_of url_a).

(** A record with several defects. *)
Definition malformed_record : pydict :=
  [ (lit "date", PStr (lit "2025-10-1"));
    (lit "liturgicalDate", PDict [ (lit "season", PStr (lit "Lent")) ]);
    (lit "firstReading",
       section_of (lit "Neh 2:1-8") (lit "short") (lit "First Reading"));
    (lit "psalm", section_of [] sample_text (lit "Responsorial Psalm"));
    (lit "secondReading", PDict [ (lit "title", PStr [] ) ]) ].

(** The same bindings with the first two keys inserted the other way
    round. *)
Definition malformed_record_swapped : pydict :=
  match malformed_record with
  | date :: liturgical :: rest => liturgical :: date :: rest
  | short => short
  end.

(** Sections whose text has 49 and 50 characters. *)
Definition text_49 : pystr :=
  lit "Jesus said to the crowds: I am the bread of life.".
Definition text_50 : pystr :=
  lit "Jesus said to the crowds: I am the bread of life..".

Definition section_49 : pydict :=
  [ (lit "reference", PStr (lit "John 6:35")); (lit "text", PStr text_49) ].
Definition section_50 : pydict :=
  [ (lit "reference", PStr (lit "John 6:35")); (lit "text", PStr text_50) ].

(** No table of printable characters above U+007F, no case table. *)
Definition nothing_printable : N -> bool := fun _ => false.
Definition no_case_table : pystr -> pystr := fun s => s.

(** A page with a gospel of two paragraphs and a psalm. *)
Definition sample_page : ptag :=
  Root [ Address (lit "Neh 2:1-8");
         ContentBody [ lit "In the month Nisan of the twentieth year" ];
         H3 (lit "Responsorial Psalm");
         Address (lit "Ps 137:1-6");
         ContentBody [ lit "R. Let my tongue be silenced";
                       lit "By the streams of Babylon";
                       lit "R. Let my tongue be silenced" ];
         H3 (lit "Gospel");
         Address (lit "Luke 9:57-62");
         ContentBody [ lit "As Jesus and his disciples were proceeding";
                       lit "";
                       lit "Follow   me." ] ].

(** The psalm heading of [sample_page] and the block that follows it. *)
Definition sample_psalm_header : ptag :=
  Elem [ ContentBody [ lit "In the month Nisan of the twentieth year" ];
         Address (lit "Neh 2:1-8") ]
       (H3 (lit "Responsorial Psalm"))
       [ Address (lit "Ps 137:1-6");
         ContentBody [ lit "R. Let my tongue be silenced";
                       lit "By the streams of Babylon";
                       lit "R. Let my tongue be silenced" ];
         H3 (lit "Gospel");
         Address (lit "Luke 9:57-62");
         ContentBody [ lit "As Jesus and his disciples were proceeding";
                       lit "";
                       lit "Follow   me." ] ].

Definition sample_psalm_section : ptag :=
  Elem [ Address (lit "Ps 137:1-6");
         H3 (lit "Responsorial Psalm");
         ContentBody [ lit "In the month Nisan of the twentieth year" ];
         Address (lit "Neh 2:1-8") ]
       (ContentBody [ lit "R. Let my tongue be silenced";
                      lit "By the streams of Babylon";
                      lit "R. Let my tongue be silenced" ])
       [ H3 (lit "Gospel");
         Address (lit "Luke 9:57-62");
         ContentBody [ lit "As Jesus and his disciples were proceeding";
                       lit "";
                       lit "Follow   me." ] ].

(** A page whose psalm block has no text. *)
Definition empty_psalm_page : ptag :=
  Root [ H3 (lit "Responsorial Psalm");
         Address (lit "Ps 137:1-6");
         ContentBody [ [] ; [] ] ].

(** The same block under a gospel heading. *)
Definition empty_gospel_page : ptag :=
  Root [ H3 (lit "Gospel");
         Address (lit "Luke 9:57-62");
         ContentBody [ [] ; [] ] ].

Definition december_13 : date := mkDate 2025 12 13.

End Examples.

(** * Properties *)

(** ** Strings and the result monad *)

Section StringFacts.

Lemma eqb_refl (s : pystr) : PyStr.eqb s s = true.
Proof.
  induction s as [|c s IH]; simpl; [reflexivity|].
  now rewrite N.eqb_refl.
Qed.

Lemma eqb_eq (a b : pystr) : PyStr.eqb a b = true <-> a = b.
Proof.
  split; [|intros ->; apply eqb_refl].
  revert b; induction a as [|x a IH]; intros [|y b]; simpl; try easy.
  intros E. apply andb_true_iff in E as [E1 E2].
  apply N.eqb_eq in E1. apply IH in E2. now subst.
Qed.

Lemma eqb_neq (a b : pystr) : PyStr.eqb a b = false <-> a <> b.
Proof.
  rewrite <- eqb_eq. destruct (PyStr.eqb a b); split; congruence.
Qed.

Lemma startswith_app (a p s : pystr) :
  startswith (a ++ p) (a ++ s) = startswith p s.
Proof.
  induction a as [|c a IH]; simpl; [reflexivity|].
  now rewrite N.eqb_refl.
Qed.

Lemma startswith_prefix (p rest : pystr) : startswith p (p ++ rest) = true.
Proof.
  rewrite <- (app_nil_r p) at 1. rewrite startswith_app. reflexivity.
Qed.

Lemma startswith_split (p s : pystr) :
  startswith p s = true -> exists rest, s = p ++ rest.
Proof.
  revert s; induction p as [|c p IH]; intros s E.
  - now exists s.
  - destruct s as [|d s]; simpl in E; [discriminate|].
    apply andb_true_iff in E as [E1 E2].
    apply N.eqb_eq in E1; subst d.
    destruct (IH _ E2) as [rest ->]. now exists rest.
Qed.

Lemma contains_here (needle hay : pystr) :
  startswith needle hay = true -> contains needle hay = true.
Proof.
  intros E. destruct hay; simpl; rewrite E; reflexivity.
Qed.

Lemma contains_app (needle pre post : pystr) :
  contains needle (pre ++ needle ++ post) = true.
Proof.
  induction pre as [|c pre IH].
  - apply contains_here. exact (startswith_prefix needle post).
  - change ((c :: pre) ++ needle ++ post)
      with (c :: (pre ++ needle ++ post)).
    simpl. rewrite IH. apply orb_true_r.
Qed.

Lemma bind_ok {A B} (c : result A) (k : A -> result B) (b : B) :
  bind c k = Ok b -> exists a, c = Ok a /\ k a = Ok b.
Proof.
  destruct c as [a|e]; simpl; [|discriminate]. now exists a.
Qed.

(** A property of the loop state that every turn keeps holds when the
    loop ends. *)
Lemma for_each_invariant {A S} (I : S -> Prop) (body : S -> A -> result S) :
  (forall s x s', I s -> body s x = Ok s' -> I s') ->
  forall l s s', I s -> for_each l body s = Ok s' -> I s'.
Proof.
  intros step l; induction l as [|x l IH]; simpl; intros s s' Hs E.
  - now injection E as <-.
  - apply bind_ok in E as (s1 & E1 & E2). eauto.
Qed.

End StringFacts.

(** ** The validator *)

Section ValidatorFacts.

Import Validator Traversal.

Lemma missing_fold (reading : pydict) (fields : list pystr) :
  forall errors,
    fold_left
      (fun errors field =>
         if negb (dict_has field reading) then
           errors ++ [lit "Missing required field: " ++ field]
         else errors)
      fields errors
    = errors
      ++ flat_map
           (fun field =>
              if dict_has field reading then []
              else [lit "Missing required field: " ++ field])
           fields.
Proof.
  induction fields as [|f fields IH]; intros errors; simpl.
  - now rewrite app_nil_r.
  - rewrite IH. destruct (dict_has f reading); simpl.
    + reflexivity.
    + now rewrite <- app_assoc.
Qed.

(** The date block appends [date_errors]. *)
Lemma date_block (reading : pydict) (errors : list pystr) :
  (if dict_has (lit "date") reading then
     try_except
       (date_str <- py_getitem (PDict reading) (lit "date") ;;
        if negb (is_str date_str) then
          Ok (errors ++ [lit "Invalid date format (expected YYYY-MM-DD)"])
        else
          n <- py_len date_str ;;
          if negb (N.eqb n 10) then
            Ok (errors ++ [lit "Invalid date format (expected YYYY-MM-DD)"])
          else Ok errors)
       (errors ++ [lit "Invalid date value"])
   else Ok errors)
  = Ok (errors ++ date_errors reading).
Proof.
  unfold dict_has, py_getitem, date_errors, invalid_date_format.
  destruct (dict_get (lit "date") reading) as [v|];
    [|now rewrite app_nil_r].
  destruct v; try reflexivity.
  cbn [bind is_str negb py_len try_except].
  replace (N.of_nat (List.length s) =? 10)%N
    with (Nat.eqb (List.length s) 10).
  - destruct (Nat.eqb (List.length s) 10); cbn [negb try_except];
      [now rewrite app_nil_r|reflexivity].
  - destruct (Nat.eqb_spec (List.length s) 10) as [->|ne];
      [reflexivity|].
    symmetry. apply N.eqb_neq. lia.
Qed.

Lemma section_block (reading : pydict) (key name : pystr)
    (errors : list pystr) :
  (if dict_has key reading && truthy (py_get reading key) then
     sec <- validate_reading_section (py_get reading key) name ;;
     Ok (errors ++ sec)
   else Ok errors)
  = (sec <- section_errors key name reading ;; Ok (errors ++ sec)).
Proof.
  unfold dict_has, py_get, section_errors.
  destruct (dict_get key reading) as [v|]; cbn [andb bind];
    [|now rewrite app_nil_r].
  destruct (truthy v); cbn [bind]; [reflexivity|now rewrite app_nil_r].
Qed.

Lemma gospel_block (reading : pydict) (errors : list pystr) :
  (if dict_has (lit "gospel") reading
      && truthy (py_get reading (lit "gospel")) then
     sec <- validate_reading_section
              (py_get reading (lit "gospel")) (lit "Gospel") ;;
     Ok (errors ++ sec)
   else Ok (errors ++ [lit "Gospel reading is required but missing"]))
  = (sec <- gospel_errors reading ;; Ok (errors ++ sec)).
Proof.
  unfold dict_has, py_get, gospel_errors, gospel_missing.
  destruct (dict_get (lit "gospel") reading) as [v|]; cbn [andb bind];
    [|reflexivity].
  destruct (truthy v); reflexivity.
Qed.

Lemma psalm_block (reading : pydict) (errors : list pystr) :
  (if dict_has (lit "psalm") reading
      && truthy (py_get reading (lit "psalm")) then
     sec <- validate_psalm_section (py_get reading (lit "psalm")) ;;
     Ok (errors ++ sec)
   else Ok errors)
  = (sec <- psalm_errors reading ;; Ok (errors ++ sec)).
Proof.
  unfold dict_has, py_get, psalm_errors.
  destruct (dict_get (lit "psalm") reading) as [v|]; cbn [andb bind];
    [|now rewrite app_nil_r].
  destruct (truthy v); cbn [bind]; [reflexivity|now rewrite app_nil_r].
Qed.

Lemma liturgical_block (reading : pydict) (errors : list pystr) :
  (if dict_has (lit "liturgicalDate") reading then
     match py_get reading (lit "liturgicalDate") with
     | PDict liturgical =>
         let errors :=
           if negb (dict_has (lit "season") liturgical) then
             errors ++ [lit "liturgicalDate missing season"]
           else errors in
         if negb (dict_has (lit "dayOfWeek") liturgical) then
           errors ++ [lit "liturgicalDate missing dayOfWeek"]
         else errors
     | _ => errors ++ [lit "liturgicalDate must be an object"]
     end
   else errors)
  = errors ++ liturgical_errors reading.
Proof.
  unfold dict_has at 1. unfold py_get, liturgical_errors.
  destruct (dict_get (lit "liturgicalDate") reading) as [v|];
    [|now rewrite app_nil_r].
  destruct v; try reflexivity.
  cbv zeta.
  destruct (dict_has (lit "season") d), (dict_has (lit "dayOfWeek") d);
    cbn [negb app]; rewrite ?app_nil_r, <- ?app_assoc; reflexivity.
Qed.

Lemma length_zero_nil {A} (l : list A) :
  Nat.eqb (List.length l) 0 = match l with [] => true | _ => false end.
Proof. now destruct l. Qed.

(** The accumulator of [validate_reading] ends as the concatenation of the
    blocks, in source order. *)
Lemma validate_reading_in_order (reading : pydict) :
  validate_reading reading = in_order reading.
Proof.
  unfold validate_reading, in_order. cbv zeta.
  rewrite missing_fold. cbn [app].
  fold (missing_field_errors reading).
  rewrite date_block. cbn [bind].
  rewrite section_block.
  destruct (section_errors (lit "firstReading") (lit "First Reading") reading)
    as [first|e]; cbn [bind]; [|reflexivity].
  rewrite gospel_block.
  destruct (gospel_errors reading) as [gospel|e]; cbn [bind]; [|reflexivity].
  rewrite psalm_block.
  destruct (psalm_errors reading) as [psalm|e]; cbn [bind]; [|reflexivity].
  rewrite section_block.
  destruct (section_errors (lit "secondReading") (lit "Second Reading") reading)
    as [second|e]; cbn [bind]; [|reflexivity].
  rewrite liturgical_block, length_zero_nil.
  rewrite <- !app_assoc. reflexivity.
Qed.

End ValidatorFacts.

Section SectionFacts.

Import Validator Traversal.

(** On a dict the field loop cannot raise and yields [field_errors]. *)
Lemma field_loop_on_dict (d : pydict) (name : pystr) (fields : list pystr) :
  forall errors,
    for_each fields
      (fun errors field =>
         present <- py_contains (PDict d) field ;;
         if negb present then
           Ok (errors ++ [name ++ lit ": Missing field '" ++ field ++ lit "'"])
         else
           v <- py_getitem (PDict d) field ;;
           if negb (truthy v) then
             Ok (errors
                 ++ [name ++ lit ": Field '" ++ field ++ lit "' is empty"])
           else Ok errors)
      errors
    = Ok (errors
          ++ flat_map
               (fun field =>
                  match dict_get field d with
                  | None =>
                      [name ++ lit ": Missing field '" ++ field ++ lit "'"]
                  | Some v =>
                      if truthy v then []
                      else [name ++ lit ": Field '" ++ field
                            ++ lit "' is empty"]
                  end)
               fields).
Proof.
  induction fields as [|f fields IH]; intros errors.
  - simpl. now rewrite app_nil_r.
  - cbn [for_each flat_map py_contains py_getitem bind].
    unfold dict_has.
    destruct (dict_get f d) as [v|]; cbn [negb bind].
    + destruct (truthy v); cbn [negb bind]; rewrite IH.
      * reflexivity.
      * now rewrite <- app_assoc.
    + rewrite IH. now rewrite <- app_assoc.
Qed.

(** [validate_reading_section] on a dict. *)
Lemma section_on_dict (d : pydict) (name : pystr) :
  validate_reading_section (PDict d) name
  = match dict_get (lit "text") d with
    | None => Ok (field_errors d name)
    | Some text =>
        n <- py_len text ;;
        if N.ltb n 50 then Ok (field_errors d name ++ [too_short name n])
        else Ok (field_errors d name)
    end.
Proof.
  unfold validate_reading_section.
  rewrite field_loop_on_dict. cbn [bind app py_contains py_getitem].
  unfold dict_has.
  destruct (dict_get (lit "text") d) as [text|]; reflexivity.
Qed.

(** Every message of a section starts with the name of the section. *)
Lemma section_messages (section : pyval) (name : pystr) (errors : list pystr) :
  validate_reading_section section name = Ok errors ->
  Forall (fun msg => startswith (name ++ lit ": ") msg = true) errors.
Proof.
  unfold validate_reading_section. intros E.
  apply bind_ok in E as (loop & Eloop & E).
  assert (Hloop : Forall (fun msg => startswith (name ++ lit ": ") msg = true)
                    loop).
  { revert Eloop. apply for_each_invariant; [|constructor].
    intros s f s' Hs Ebody.
    apply bind_ok in Ebody as (present & _ & Ebody).
    destruct present; cbn [negb] in Ebody.
    - apply bind_ok in Ebody as (v & _ & Ebody).
      destruct (truthy v); cbn [negb] in Ebody;
        injection Ebody as <-; [assumption|].
      apply Forall_app; split; [assumption|].
      constructor; [|constructor]. apply startswith_app.
    - injection Ebody as <-.
      apply Forall_app; split; [assumption|].
      constructor; [|constructor]. apply startswith_app. }
  apply bind_ok in E as (present & _ & E).
  destruct present; [|now injection E as <-].
  apply bind_ok in E as (text & _ & E).
  apply bind_ok in E as (n & _ & E).
  destruct (N.ltb n 50); injection E as <-; [|assumption].
  apply Forall_app; split; [assumption|].
  constructor; [|constructor]. apply startswith_app.
Qed.

Lemma psalm_messages (section : pyval) (errors : list pystr) :
  validate_psalm_section section = Ok errors ->
  Forall (fun msg => startswith (lit "Psalm: ") msg = true) errors.
Proof.
  unfold validate_psalm_section. intros E.
  apply bind_ok in E as (sec & Esec & E).
  apply section_messages in Esec.
  apply bind_ok in E as (present & _ & E).
  destruct present; cbn [negb] in E.
  - apply bind_ok in E as (v & _ & E).
    destruct (truthy v); cbn [negb] in E; injection E as <-;
      [assumption|].
    apply Forall_app; split; [assumption|]. now repeat constructor.
  - injection E as <-.
    apply Forall_app; split; [assumption|]. now repeat constructor.
Qed.

(** A dict whose text is [None] makes the length test raise. *)
Lemma section_raises_on_null_text (d : pydict) (name : pystr) :
  dict_get (lit "text") d = Some PNone ->
  validate_reading_section (PDict d) name = Raise TypeError.
Proof. intros E. rewrite section_on_dict, E. reflexivity. Qed.

(** On a shaped section the checks return. *)
Lemma section_returns (v : pyval) (name : pystr) :
  truthy v = true -> shaped_section v = true ->
  exists errors, validate_reading_section v name = Ok errors.
Proof.
  intros T Sh.
  destruct v;
    try (unfold shaped_section in Sh; rewrite T in Sh; discriminate).
  cbn [shaped_section] in Sh. rewrite section_on_dict.
  destruct (dict_get (lit "text") d) as [text|]; [|eauto].
  destruct text; try discriminate; cbn [py_len bind];
    match goal with |- context [N.ltb ?n 50] => destruct (N.ltb n 50) end;
    eauto.
Qed.

Lemma psalm_returns (v : pyval) :
  truthy v = true -> shaped_section v = true ->
  exists errors, validate_psalm_section v = Ok errors.
Proof.
  intros T Sh. unfold validate_psalm_section.
  destruct (@section_returns v (lit "Psalm") T Sh) as [errors ->].
  destruct v;
    try (unfold shaped_section in Sh; rewrite T in Sh; discriminate).
  cbn [bind py_contains py_getitem]. unfold dict_has.
  destruct (dict_get (lit "response") d) as [r|]; cbn [negb bind];
    [destruct (truthy r)|]; cbn [negb]; eauto.
Qed.

End SectionFacts.

(** ** Ranks of the messages *)

Section RankFacts.

Import Validator Traversal.

Lemma rank_first (msg : pystr) :
  startswith (lit "First Reading" ++ lit ": ") msg = true -> rank msg = 1.
Proof. intros E. apply startswith_split in E as [rest ->]. reflexivity. Qed.

Lemma rank_gospel (msg : pystr) :
  startswith (lit "Gospel" ++ lit ": ") msg = true -> rank msg = 2.
Proof. intros E. apply startswith_split in E as [rest ->]. reflexivity. Qed.

Lemma rank_psalm (msg : pystr) :
  startswith (lit "Psalm: ") msg = true -> rank msg = 3.
Proof. intros E. apply startswith_split in E as [rest ->]. reflexivity. Qed.

Lemma rank_second (msg : pystr) :
  startswith (lit "Second Reading" ++ lit ": ") msg = true -> rank msg = 4.
Proof. intros E. apply startswith_split in E as [rest ->]. reflexivity. Qed.

Lemma missing_rank (reading : pydict) :
  Forall (fun msg => rank msg = 0) (missing_field_errors reading).
Proof.
  unfold missing_field_errors. apply Forall_flat_map.
  apply Forall_forall. intros field _.
  destruct (dict_has field reading); now repeat constructor.
Qed.

Lemma date_rank (reading : pydict) :
  Forall (fun msg => rank msg = 0) (date_errors reading).
Proof.
  unfold date_errors.
  destruct (dict_get (lit "date") reading) as [[| | |s| | |]|];
    try destruct (Nat.eqb (List.length s) 10); now repeat constructor.
Qed.

Lemma section_rank (key name : pystr) (i : nat) (reading : pydict)
    (errors : list pystr) :
  (forall msg, startswith (name ++ lit ": ") msg = true -> rank msg = i) ->
  section_errors key name reading = Ok errors ->
  Forall (fun msg => rank msg = i) errors.
Proof.
  unfold section_errors. intros Hname E.
  destruct (dict_get key reading) as [v|];
    [destruct (truthy v)|]; try (injection E as <-; constructor).
  apply section_messages in E. revert E. apply Forall_impl, Hname.
Qed.

Lemma gospel_rank (reading : pydict) (errors : list pystr) :
  gospel_errors reading = Ok errors ->
  Forall (fun msg => rank msg = 2) errors.
Proof.
  unfold gospel_errors. intros E.
  destruct (dict_get (lit "gospel") reading) as [v|];
    [destruct (truthy v)|];
    try (injection E as <-; now repeat constructor).
  apply section_messages in E. revert E. apply Forall_impl, rank_gospel.
Qed.

Lemma psalm_rank (reading : pydict) (errors : list pystr) :
  psalm_errors reading = Ok errors ->
  Forall (fun msg => rank msg = 3) errors.
Proof.
  unfold psalm_errors. intros E.
  destruct (dict_get (lit "psalm") reading) as [v|];
    [destruct (truthy v)|]; try (injection E as <-; constructor).
  apply psalm_messages in E. revert E. apply Forall_impl, rank_psalm.
Qed.

Lemma liturgical_rank (reading : pydict) :
  Forall (fun msg => rank msg = 5) (liturgical_errors reading).
Proof.
  unfold liturgical_errors.
  destruct (dict_get (lit "liturgicalDate") reading) as [[| | | | | |d]|];
    try (now repeat constructor).
  destruct (dict_has (lit "season") d), (dict_has (lit "dayOfWeek") d);
    now repeat constructor.
Qed.

(** Blocks of constant rank, put one after the other by increasing rank,
    give a list sorted by rank. *)
Lemma sorted_blocks (blocks : list (nat * list pystr)) :
  StronglySorted le (map fst blocks) ->
  Forall (fun b => Forall (fun msg => rank msg = fst b) (snd b)) blocks ->
  StronglySorted le (map rank (concat (map snd blocks))).
Proof.
  induction blocks as [|[i l] blocks IH]; intros Hs Hb; [constructor|].
  cbn [map fst snd concat] in *.
  apply StronglySorted_inv in Hs as [Hs Hi].
  apply Forall_cons_iff in Hb as [Hl Hb]. cbn [fst snd] in Hl.
  specialize (IH Hs Hb).
  assert (Hrest : Forall (fun msg => i <= rank msg)
                    (concat (map snd blocks))).
  { apply Forall_concat. apply Forall_map.
    rewrite Forall_map in Hi.
    eapply Forall_impl; [|exact (Forall_and Hi Hb)].
    intros [j l'] [Hij Hl']. cbn [fst snd] in *.
    revert Hl'. apply Forall_impl. intros msg ->. exact Hij. }
  clear Hb Hs Hi. rewrite map_app.
  induction l as [|m l IHl]; [exact IH|].
  apply Forall_cons_iff in Hl as [Hm Hl].
  cbn [map app]. constructor; [now apply IHl|].
  apply Forall_app; split.
  - apply Forall_map. revert Hl. apply Forall_impl. intros ? ->. lia.
  - apply Forall_map. revert Hrest. apply Forall_impl. intros ?. lia.
Qed.

End RankFacts.

(** ** Claims about the validator *)

Section ValidatorClaims.

Import Validator Traversal Examples.

(** The flag is true exactly when the list of errors is empty, whenever
    the validator returns. *)
Lemma validate_reading_flag (reading : pydict) (valid : bool)
    (errors : list pystr) :
  validate_reading reading = Ok (valid, errors) ->
  (valid = true <-> errors = []).
Proof.
  rewrite validate_reading_in_order. unfold in_order. intros E.
  apply bind_ok in E as (first & _ & E).
  apply bind_ok in E as (gospel & _ & E).
  apply bind_ok in E as (psalm & _ & E).
  apply bind_ok in E as (second & _ & E).
  injection E as <- <-.
  match goal with |- context [match ?l with _ => _ end] => destruct l end;
    split; congruence.
Qed.

(** On a record whose sections are shaped the validator returns. *)
Lemma validate_reading_returns (reading : pydict) :
  shaped_record reading = true ->
  exists valid errors, validate_reading reading = Ok (valid, errors).
Proof.
  unfold shaped_record. cbn [forallb]. rewrite !andb_true_iff.
  intros (Hf & Hg & Hp & Hs & _).
  rewrite validate_reading_in_order. unfold in_order.
  assert (Ef : exists e, section_errors (lit "firstReading")
                           (lit "First Reading") reading = Ok e).
  { unfold section_errors, py_get in *.
    destruct (dict_get (lit "firstReading") reading) as [v|]; [|eauto].
    destruct (truthy v) eqn:T; [|eauto]. now apply section_returns. }
  assert (Eg : exists e, gospel_errors reading = Ok e).
  { unfold gospel_errors, py_get in *.
    destruct (dict_get (lit "gospel") reading) as [v|]; [|eauto].
    destruct (truthy v) eqn:T; [|eauto]. now apply section_returns. }
  assert (Ep : exists e, psalm_errors reading = Ok e).
  { unfold psalm_errors, py_get in *.
    destruct (dict_get (lit "psalm") reading) as [v|]; [|eauto].
    destruct (truthy v) eqn:T; [|eauto]. now apply psalm_returns. }
  assert (Es : exists e, section_errors (lit "secondReading")
                           (lit "Second Reading") reading = Ok e).
  { unfold section_errors, py_get in *.
    destruct (dict_get (lit "secondReading") reading) as [v|]; [|eauto].
    destruct (truthy v) eqn:T; [|eauto]. now apply section_returns. }
  destruct Ef as [? ->], Eg as [? ->], Ep as [? ->], Es as [? ->].
  cbn [bind]. eauto.
Qed.

(** C3: [validate_reading] raises on a record whose gospel has
    [text: None]: the field loop reports the empty field, then [len(text)]
    raises [TypeError], so no pair of flag and errors is returned. *)
Theorem validate_reading_raises_on_null_text :
  validate_reading null_text_record = Raise TypeError.
Proof. vm_compute. reflexivity. Qed.

Lemma in_order_lookups (reading reading' : pydict) :
  (forall k, dict_get k reading' = dict_get k reading) ->
  in_order reading' = in_order reading.
Proof.
  intros H.
  unfold in_order, section_errors, gospel_errors, psalm_errors, date_errors,
    liturgical_errors, missing_field_errors, required_fields.
  cbn [flat_map]. unfold dict_has. rewrite !H. reflexivity.
Qed.

(** C4: the errors of [validate_reading] come in the fixed traversal
    order.  The result is the concatenation of the blocks top-level fields
    and date, first reading, gospel, psalm, second reading,
    liturgicalDate; the returned messages are sorted by the rank of the
    part they are about; and the result is a function of the bindings of
    the record alone, so two runs on the same record, in whatever order
    its keys were inserted, give the same ordered list. *)
Theorem validate_reading_order_stable (reading : pydict) :
  validate_reading reading = in_order reading
  /\ (forall valid errors,
        validate_reading reading = Ok (valid, errors) ->
        StronglySorted le (map rank errors))
  /\ (forall reading',
        (forall k, dict_get k reading' = dict_get k reading) ->
        validate_reading reading' = validate_reading reading).
Proof.
  split; [apply validate_reading_in_order|split].
  - intros valid errors. rewrite validate_reading_in_order.
    unfold in_order. intros E.
    apply bind_ok in E as (first & Ef & E).
    apply bind_ok in E as (gospel & Eg & E).
    apply bind_ok in E as (psalm & Ep & E).
    apply bind_ok in E as (second & Es & E).
    injection E as _ <-.
    pose (blocks :=
            [ (0, missing_field_errors reading ++ date_errors reading);
              (1, first); (2, gospel); (3, psalm); (4, second);
              (5, liturgical_errors reading) ]).
    replace (_ ++ _) with (concat (map snd blocks))
      by (unfold blocks; cbn [map snd concat]; now rewrite app_nil_r).
    apply sorted_blocks; unfold blocks.
    + cbn [map fst]. repeat (constructor; [|repeat constructor; lia]).
      constructor.
    + repeat constructor; cbn [fst snd].
      * apply Forall_app; split; [apply missing_rank|apply date_rank].
      * revert Ef. apply section_rank, rank_first.
      * now apply (gospel_rank reading).
      * now apply (psalm_rank reading).
      * revert Es. apply section_rank, rank_second.
      * apply liturgical_rank.
  - intros reading' H. rewrite !validate_reading_in_order.
    now apply in_order_lookups.
Qed.

Lemma swapped_same_bindings (k : pystr) :
  dict_get k malformed_record_swapped = dict_get k malformed_record.
Proof.
  unfold malformed_record_swapped, malformed_record. cbn [dict_get].
  destruct (PyStr.eqb (lit "date") k) eqn:E1;
    destruct (PyStr.eqb (lit "liturgicalDate") k) eqn:E2; try reflexivity.
  apply eqb_eq in E1, E2. subst k. discriminate.
Qed.

Lemma validate_reading_order_stable_witness :
  StronglySorted le
    (map rank
       [ lit "Missing required field: gospel";
         lit "Missing required field: metadata";
         lit "Invalid date format (expected YYYY-MM-DD)";
         lit "First Reading: Text too short (5 chars)";
         lit "Gospel reading is required but missing";
         lit "Psalm: Field 'reference' is empty";
         lit "Psalm: Field 'citation' is empty";
         lit "Psalm: Missing 'response' field";
         lit "Second Reading: Missing field 'reference'";
         lit "Second Reading: Missing field 'citation'";
         lit "Second Reading: Missing field 'text'";
         lit "Second Reading: Field 'title' is empty";
         lit "liturgicalDate missing dayOfWeek" ])
  /\ validate_reading malformed_record_swapped
     = validate_reading malformed_record.
Proof.
  split.
  - apply (proj1 (proj2 (validate_reading_order_stable malformed_record))
             false).
    vm_compute. reflexivity.
  - apply (proj2 (proj2 (validate_reading_order_stable malformed_record))).
    exact swapped_same_bindings.
Defined.

Lemma field_errors_not_too_short (d : pydict) (name msg : pystr) :
  In msg (field_errors d name) ->
  startswith (name ++ lit ": Text too short") msg = false.
Proof.
  unfold field_errors. intros Hin.
  apply in_flat_map in Hin as (field & _ & Hin).
  destruct (dict_get field d) as [v|]; [destruct (truthy v)|];
    simpl in Hin; try tauto;
    destruct Hin as [<-|[]]; apply startswith_app.
Qed.

(** C5: a section whose text is a string of exactly 49 characters gets
    the message "Text too short (49 chars)", and one whose text has exactly
    50 characters gets no "Text too short" message. *)
Theorem text_length_boundary (d : pydict) (name text : pystr) :
  dict_get (lit "text") d = Some (PStr text) ->
  (List.length text = 49 ->
   exists errors,
     validate_reading_section (PDict d) name = Ok errors
     /\ In (name ++ lit ": Text too short (49 chars)") errors)
  /\ (List.length text = 50 ->
      exists errors,
        validate_reading_section (PDict d) name = Ok errors
        /\ forall msg, In msg errors ->
                       startswith (name ++ lit ": Text too short") msg = false).
Proof.
  intros Ht. rewrite section_on_dict, Ht. cbn [py_len bind].
  split; intros ->.
  - eexists; split; [reflexivity|].
    apply in_or_app; right; left. reflexivity.
  - eexists; split; [reflexivity|].
    intros msg. apply field_errors_not_too_short.
Qed.

Lemma text_length_boundary_witness :
  (exists errors,
     validate_reading_section (PDict section_49) (lit "Gospel") = Ok errors
     /\ In (lit "Gospel" ++ lit ": Text too short (49 chars)") errors)
  /\ (exists errors,
        validate_reading_section (PDict section_50) (lit "Gospel") = Ok errors
        /\ forall msg, In msg errors ->
             startswith (lit "Gospel" ++ lit ": Text too short") msg = false).
Proof.
  split.
  - apply (proj1 (@text_length_boundary section_49 (lit "Gospel") text_49
                    eq_refl)).
    reflexivity.
  - apply (proj2 (@text_length_boundary section_50 (lit "Gospel") text_50
                    eq_refl)).
    reflexivity.
Defined.

End ValidatorClaims.

(** ** Known answers of the library functions *)

Section KnownAnswers.

Import PyLib.

Example md5_of_empty :
  MD5.hexdigest [] = lit "d41d8cd98f00b204e9800998ecf8427e".
Proof. vm_compute. reflexivity. Qed.

Example md5_of_abc :
  MD5.hexdigest (lit "abc") = lit "900150983cd24fb0d6963f7d28e17f72".
Proof. vm_compute. reflexivity. Qed.

(** A message of 56 bytes needs a second block for the length. *)
Example md5_of_two_blocks :
  MD5.hexdigest
    (lit "12345678901234567890123456789012345678901234567890123456")
  = lit "49f193adce178490e34d1b3a4ec0064c".
Proof. vm_compute. reflexivity. Qed.

Example json_of_list :
  json_dumps (PList [PNone; PBool true; PInt (-5)])
  = Ok (lit "[null, true, -5]").
Proof. vm_compute. reflexivity. Qed.

Example json_sorts_keys :
  map fst (sort_items [ (lit "psalm", 1); (lit "date", 2);
                        (lit "gospel", 3); (lit "firstReading", 4) ])
  = [lit "date"; lit "firstReading"; lit "gospel"; lit "psalm"].
Proof. vm_compute. reflexivity. Qed.

Example json_refuses_bytes :
  json_dumps (PDict [ (lit "text", PBytes (lit "abc")) ]) = Raise TypeError.
Proof. reflexivity. Qed.

Example utf8_of_response_sign :
  utf8_encode [0x211F; 46]%N = Ok [0xE2; 0x84; 0x9F; 46]%N.
Proof. reflexivity. Qed.

Example utf8_refuses_surrogate :
  utf8_encode [0xD800]%N = Raise UnicodeEncodeError.
Proof. reflexivity. Qed.

Example str_of_dict (pr : N -> bool) :
  py_str pr (PDict [ (lit "text", PBytes (lit "it's")); (lit "n", PNone) ])
  = lit "{'text': b" ++ [34]%N ++ lit "it's" ++ [34]%N ++ lit ", 'n': None}".
Proof. vm_compute. reflexivity. Qed.

Example spaces_collapse :
  Scraper.normalize_whitespace (lit "Follow   me.") = lit "Follow me.".
Proof. reflexivity. Qed.

End KnownAnswers.

(** ** Encoding and [repr] *)

Section EncodingFacts.

Import PyLib.

Local Open Scope N_scope.

(** Induction on values, with the hypothesis for the members of lists and
    dicts. *)
Lemma pyval_nested_ind (P : pyval -> Prop) :
  P PNone ->
  (forall b, P (PBool b)) ->
  (forall z, P (PInt z)) ->
  (forall s, P (PStr s)) ->
  (forall b, P (PBytes b)) ->
  (forall l, Forall P l -> P (PList l)) ->
  (forall d, Forall (fun kv => P (snd kv)) d -> P (PDict d)) ->
  forall v, P v.
Proof.
  intros HN HB HI HS HY HL HD.
  fix IH 1.
  intros [ |b|z|s|b|l|d];
    [exact HN|apply HB|apply HI|apply HS|apply HY| | ].
  - apply HL. induction l as [|x l IHl]; constructor; [apply IH|exact IHl].
  - apply HD. induction d as [|[k x] d IHd]; constructor;
      [apply IH|exact IHd].
Qed.

Lemma small_encodable (s : pystr) :
  Forall (fun c => c < 0xD800) s -> encodable s.
Proof.
  apply Forall_impl. intros c Hc. unfold is_surrogate.
  apply andb_false_iff. left. apply N.leb_gt. exact Hc.
Qed.

Lemma lit_small (s : string) : Forall (fun c => c < 0xD800) (lit s).
Proof.
  unfold lit. apply Forall_map, Forall_forall. intros a _.
  pose proof (N_ascii_bounded a). lia.
Qed.

Lemma lit_encodable (s : string) : encodable (lit s).
Proof. apply small_encodable, lit_small. Qed.

Lemma encodable_app (a b : pystr) :
  encodable a -> encodable b -> encodable (a ++ b).
Proof. intros Ha Hb. apply Forall_app. now split. Qed.

Lemma of_Z_encodable (z : Z) : encodable (of_Z z).
Proof.
  destruct z; unfold of_Z, of_N;
    repeat apply encodable_app; apply lit_encodable.
Qed.

Lemma hex_digit_small (n : N) : MD5.hex_digit (N.land n 0xF) < 0xD800.
Proof.
  assert (N.land n 0xF < 16).
  { change 0xF with (N.ones 4). rewrite N.land_ones.
    apply N.mod_lt. discriminate. }
  unfold MD5.hex_digit. destruct (N.ltb _ 10); lia.
Qed.

Lemma hex_digits_encodable (width : nat) (n : N) :
  encodable (hex_digits width n).
Proof.
  apply small_encodable. unfold hex_digits.
  apply Forall_rev. rewrite map_map.
  apply Forall_map, Forall_forall. intros i _. apply hex_digit_small.
Qed.

Lemma join_encodable (sep : pystr) (parts : list pystr) :
  encodable sep -> Forall encodable parts -> encodable (join sep parts).
Proof.
  intros Hsep. induction 1 as [|p parts Hp Hparts IH]; [constructor|].
  destruct parts as [|q parts]; [exact Hp|].
  change (join sep (p :: q :: parts))
    with (p ++ sep ++ join sep (q :: parts)).
  now repeat apply encodable_app.
Qed.

(** Text without surrogates has an encoding. *)
Lemma utf8_encode_ok (s : pystr) :
  encodable s -> exists bytes, utf8_encode s = Ok bytes.
Proof.
  induction 1 as [|c s Hc Hs [bytes IH]]; [now exists []|].
  cbn [utf8_encode]. rewrite IH.
  assert (exists b, utf8_char c = Ok b) as [b ->].
  { unfold utf8_char. rewrite Hc.
    repeat match goal with |- context [N.ltb ?a ?b] =>
             destruct (N.ltb a b) end; eauto. }
  cbn [bind]. eauto.
Qed.

Section ReprFacts.

Variable unicode_isprintable : N -> bool.









End ReprFacts.

End EncodingFacts.

(** ** The canonical serialization *)

Section JsonFacts.

Import PyLib.

Local Open Scope N_scope.

Lemma forallb_encodable (s : pystr) :
  forallb (fun c => negb (is_surrogate c)) s = true -> encodable s.
Proof.
  intros E. apply Forall_forall. intros c Hc.
  rewrite forallb_forall in E. specialize (E c Hc).
  now destruct (is_surrogate c).
Qed.

Lemma json_string_encodable (s : pystr) :
  encodable s -> encodable (json_string s).
Proof.
  intros Hs. unfold json_string.
  repeat apply encodable_app; try (apply small_encodable; now repeat constructor).
  apply Forall_flat_map. revert Hs. apply Forall_impl. intros c Hc.
  unfold json_escape_char.
  destruct (N.eqb c 34); [apply small_encodable; now repeat constructor|].
  repeat match goal with
         | |- context [if N.eqb c ?k then _ else _] =>
             destruct (N.eqb c k); [apply lit_encodable|]
         end.
  destruct (N.ltb c 32);
    [apply encodable_app; [apply lit_encodable|apply hex_digits_encodable]|].
  now constructor.
Qed.

Lemma insert_item_Forall {V} (P : pystr * V -> Prop) (kv : pystr * V)
    (l : list (pystr * V)) :
  P kv -> Forall P l -> Forall P (insert_item kv l).
Proof.
  intros Hkv. induction 1 as [|kv' l Hkv' Hl IH]; cbn [insert_item].
  - now repeat constructor.
  - destruct (PyStr.leb (fst kv) (fst kv')); now repeat constructor.
Qed.

Lemma sort_items_Forall {V} (P : pystr * V -> Prop) (l : list (pystr * V)) :
  Forall P l -> Forall P (sort_items l).
Proof.
  unfold sort_items. induction 1; cbn [fold_right]; [constructor|].
  now apply insert_item_Forall.
Qed.

(** A plain value has a JSON text, and the text can be encoded. *)
Lemma json_dumps_plain (v : pyval) :
  plain v = true -> exists s, json_dumps v = Ok s /\ encodable s.
Proof.
  induction v as [ |b|z|s|b|l IH|d IH] using pyval_nested_ind; intros Hp.
  - eexists; split; [reflexivity|apply lit_encodable].
  - destruct b; eexists; (split; [reflexivity|apply lit_encodable]).
  - eexists; split; [reflexivity|apply of_Z_encodable].
  - eexists; split; [reflexivity|].
    apply json_string_encodable, forallb_encodable, Hp.
  - discriminate.
  - cbn [json_dumps plain] in *.
    match goal with
    | |- context [bind (?f l)] =>
        assert (exists items, f l = Ok items /\ Forall encodable items)
          as (items & -> & Hitems)
    end.
    { induction IH as [|x l Hx _ IHl]; [now exists []|].
      apply andb_true_iff in Hp as [Hp1 Hp2].
      destruct (Hx Hp1) as (s & -> & Hs).
      destruct (IHl Hp2) as (items & -> & Hitems).
      cbn [bind]. eexists; split; [reflexivity|now constructor]. }
    cbn [bind]. eexists; split; [reflexivity|].
    repeat apply encodable_app; try apply lit_encodable.
    apply join_encodable; [apply lit_encodable|assumption].
  - cbn [json_dumps plain] in *.
    match goal with
    | |- context [bind (?f d)] =>
        assert (exists items,
                   f d = Ok items
                   /\ Forall (fun kv => encodable (fst kv)
                                        /\ encodable (snd kv)) items)
          as (items & -> & Hitems)
    end.
    { induction IH as [|[k x] d Hx _ IHd]; [now exists []|].
      apply andb_true_iff in Hp as [Hp Hp3].
      apply andb_true_iff in Hp as [Hp1 Hp2]. cbn [snd] in Hx.
      destruct (Hx Hp2) as (s & -> & Hs).
      destruct (IHd Hp3) as (items & -> & Hitems).
      cbn [bind]. eexists; split; [reflexivity|].
      constructor; [|assumption]. split; [|exact Hs].
      now apply forallb_encodable. }
    cbn [bind]. eexists; split; [reflexivity|].
    repeat apply encodable_app; try apply lit_encodable.
    apply join_encodable; [apply lit_encodable|].
    apply Forall_map. apply sort_items_Forall in Hitems.
    revert Hitems. apply Forall_impl. intros [k s] [Hk Hs].
    apply encodable_app; [now apply json_string_encodable|].
    apply encodable_app; [apply lit_encodable|exact Hs].
Qed.

End JsonFacts.

(** ** Claims about the checksum *)

Section ChecksumClaims.

Import PyLib Checksum Examples.

Lemma same_content_dict (reading reading' : pydict) :
  same_content reading reading' -> content reading = content reading'.
Proof.
  intros H. unfold content.
  rewrite (H (lit "date")), (H (lit "firstReading")), (H (lit "psalm")),
    (H (lit "secondReading")), (H (lit "gospel"));
    unfold content_fields; cbn [In]; tauto.
Qed.

(** The [try] block succeeds on a record whose content fields are plain. *)
Lemma canonical_checksum_plain (reading : pydict) :
  (forall k, In k content_fields -> plain (py_get reading k) = true) ->
  exists checksum, canonical_checksum reading = Ok checksum.
Proof.
  intros H. unfold canonical_checksum.
  destruct (@json_dumps_plain (PDict (content reading))) as (s & -> & Hs).
  { unfold content. cbn [plain].
    rewrite !H by (unfold content_fields; cbn [In]; tauto).
    reflexivity. }
  cbn [bind]. destruct (utf8_encode_ok Hs) as [bytes ->].
  cbn [bind]. eauto.
Qed.



(** C1, as the code has it: when the [try] block of
    [calculate_checksum] does not raise on a record (its content fields
    serialize to JSON and the text can be encoded), every record with the
    same values in the content fields has the same checksum, whatever its
    metadata. *)
Theorem checksum_ignores_metadata (pr : N -> bool)
    (reading reading' : pydict) (checksum : pystr) :
  same_content reading reading' ->
  canonical_checksum reading = Ok checksum ->
  calculate_checksum pr reading = Ok checksum
  /\ calculate_checksum pr reading' = Ok checksum.
Proof.
  intros Hsame Hc. unfold calculate_checksum.
  assert (Hc' : canonical_checksum reading' = Ok checksum).
  { unfold canonical_checksum in *.
    now rewrite <- (same_content_dict Hsame). }
  now rewrite Hc, Hc'.
Qed.

Lemma record_a_b_same_content : same_content record_a record_b.
Proof.
  intros k Hk. unfold content_fields in Hk. cbn [In] in Hk.
  decompose [or] Hk; subst; try reflexivity. contradiction.
Qed.

Lemma checksum_ignores_metadata_witness :
  calculate_checksum nothing_printable record_a
    = Ok (lit "a5e49298b22c7db49248ead2b63db034")
  /\ calculate_checksum nothing_printable record_b
    = Ok (lit "a5e49298b22c7db49248ead2b63db034").
Proof.
  apply (@checksum_ignores_metadata nothing_printable record_a record_b).
  - exact record_a_b_same_content.
  - vm_compute. reflexivity.
Defined.

(** C1 as it is stated fails: with a gospel text held as bytes the [try]
    block raises, the handler hashes [str(reading)], and the checksum
    follows the metadata; the two records differ in [sourceUrl] only. *)
Lemma checksum_follows_metadata_in_handler :
  same_content bytes_record_a bytes_record_b
  /\ calculate_checksum nothing_printable bytes_record_a
     = Ok (lit "0feaff699cd93045bb72bdc54901098c")
  /\ calculate_checksum nothing_printable bytes_record_b
     = Ok (lit "6a8f9068ee5329f7afc3621091e35276")
  /\ calculate_checksum nothing_printable bytes_record_a
     <> calculate_checksum nothing_printable bytes_record_b.
Proof.
  split; [|split; [|split]].
  - intros k Hk. unfold content_fields in Hk. cbn [In] in Hk.
    decompose [or] Hk; subst; try reflexivity. contradiction.
  - vm_compute. reflexivity.
  - vm_compute. reflexivity.
  - vm_compute. discriminate.
Qed.

(** The same holds for every table of printable characters: the text of
    the two records is ASCII. *)
Lemma handler_checksums_differ (pr : N -> bool) :
  calculate_checksum pr bytes_record_a <> calculate_checksum pr bytes_record_b.
Proof. vm_compute. discriminate. Qed.


End ChecksumClaims.

(** ** Claims about the season and the colour *)

Section LiturgicalClaims.

Import Scraper Examples.

Variable unicode_lower : pystr -> pystr.

Lemma contains_nil_false (needle : pystr) :
  needle <> [] -> contains needle [] = false.
Proof. destruct needle; [congruence|reflexivity]. Qed.

Lemma lower_nil : lower unicode_lower [] = [].
Proof. reflexivity. Qed.

Lemma color_without_feast (season : pystr) (feast_day : option pystr) :
  (feast_day = None
   \/ exists f, feast_day = Some f
                /\ contains (lit "mary") (lower unicode_lower f) = false
                /\ contains (lit "virgin") (lower unicode_lower f) = false) ->
  _get_liturgical_color unicode_lower season feast_day = get_default season_colors season (lit "green").
Proof.
  unfold _get_liturgical_color.
  intros [->|(f & -> & Hm & Hv)]; [reflexivity|].
  rewrite Hm, Hv. now rewrite andb_false_r.
Qed.

(** C6: the colour is white when the feast day contains "mary" or
    "virgin" once lowercased; otherwise it is the value of the table,
    purple for Advent and Lent, white for Christmas and Easter, green for
    Ordinary Time, and green for a season that is not in the table.  Lent
    without feast gives purple, Easter with the feast "Solemnity of the
    Blessed Virgin Mary" gives white, Ordinary Time without feast gives
    green. *)
Theorem liturgical_color_rule :
  (forall (season : pystr) (feast_day : option pystr),
      (forall f,
          feast_day = Some f ->
          contains (lit "mary") (lower unicode_lower f) = true
          \/ contains (lit "virgin") (lower unicode_lower f) = true ->
          _get_liturgical_color unicode_lower season feast_day = lit "white")
      /\ (feast_day = None
          \/ (exists f, feast_day = Some f
                        /\ contains (lit "mary") (lower unicode_lower f) = false
                        /\ contains (lit "virgin") (lower unicode_lower f) = false) ->
          (season = lit "Advent" \/ season = lit "Lent" ->
           _get_liturgical_color unicode_lower season feast_day = lit "purple")
          /\ (season = lit "Christmas" \/ season = lit "Easter" ->
              _get_liturgical_color unicode_lower season feast_day = lit "white")
          /\ (season = lit "Ordinary Time" ->
              _get_liturgical_color unicode_lower season feast_day = lit "green")
          /\ (~ In season [lit "Advent"; lit "Christmas"; lit "Lent";
                           lit "Easter"; lit "Ordinary Time"] ->
              _get_liturgical_color unicode_lower season feast_day = lit "green")))
  /\ _get_liturgical_color unicode_lower (lit "Lent") None = lit "purple"
  /\ _get_liturgical_color unicode_lower (lit "Easter")
       (Some (lit "Solemnity of the Blessed Virgin Mary")) = lit "white"
  /\ _get_liturgical_color unicode_lower (lit "Ordinary Time") None = lit "green".
Proof.
  split; [|repeat split; reflexivity].
  intros season feast_day. split.
  - intros f -> Hf. unfold _get_liturgical_color.
    destruct f as [|c f].
    + rewrite lower_nil in Hf. destruct Hf; discriminate.
    + cbn [is_empty negb andb].
      destruct Hf as [-> | ->]; [reflexivity|].
      now rewrite orb_true_r.
  - intros Hf. rewrite (color_without_feast season Hf).
    repeat split.
    + intros [-> | ->]; reflexivity.
    + intros [-> | ->]; reflexivity.
    + intros ->; reflexivity.
    + intros Hnot. unfold season_colors. cbn [get_default].
      repeat match goal with
             | |- context [PyStr.eqb ?k season] =>
                 let E := fresh "E" in
                 destruct (PyStr.eqb k season) eqn:E;
                 [apply eqb_eq in E; subst season;
                  exfalso; apply Hnot; cbn [In]; tauto|]
             end.
      reflexivity.
Qed.

(** C7: the season is the one of the first keyword, in the order advent,
    christmas, lent or ash wednesday, easter, ordinary time, that the
    lowercased title contains; when it contains none, the month decides:
    November and December give Advent, January gives Christmas, February
    and March give Lent, April gives Easter, the other months give Ordinary
    Time. *)
Theorem season_rule (liturgical_title : pystr) (d : date) :
  let t := lower unicode_lower liturgical_title in
  let season := _determine_season unicode_lower liturgical_title d in
  (contains (lit "advent") t = true -> season = lit "Advent")
  /\ (contains (lit "advent") t = false ->
      contains (lit "christmas") t = true -> season = lit "Christmas")
  /\ (contains (lit "advent") t = false ->
      contains (lit "christmas") t = false ->
      contains (lit "lent") t = true
      \/ contains (lit "ash wednesday") t = true ->
      season = lit "Lent")
  /\ (contains (lit "advent") t = false ->
      contains (lit "christmas") t = false ->
      contains (lit "lent") t = false ->
      contains (lit "ash wednesday") t = false ->
      contains (lit "easter") t = true -> season = lit "Easter")
  /\ (contains (lit "advent") t = false ->
      contains (lit "christmas") t = false ->
      contains (lit "lent") t = false ->
      contains (lit "ash wednesday") t = false ->
      contains (lit "easter") t = false ->
      contains (lit "ordinary time") t = true ->
      season = lit "Ordinary Time")
  /\ (contains (lit "advent") t = false ->
      contains (lit "christmas") t = false ->
      contains (lit "lent") t = false ->
      contains (lit "ash wednesday") t = false ->
      contains (lit "easter") t = false ->
      contains (lit "ordinary time") t = false ->
      (month d = 11%Z \/ month d = 12%Z -> season = lit "Advent")
      /\ (month d = 1%Z -> season = lit "Christmas")
      /\ (month d = 2%Z \/ month d = 3%Z -> season = lit "Lent")
      /\ (month d = 4%Z -> season = lit "Easter")
      /\ (~ In (month d) [11; 12; 1; 2; 3; 4]%Z ->
          season = lit "Ordinary Time")).
Proof.
  intros t season. subst season. unfold _determine_season. fold t.
  split; [|split; [|split; [|split; [|split]]]].
  - now intros ->.
  - now intros -> ->.
  - intros -> -> [-> | ->]; [reflexivity|]. now rewrite orb_true_r.
  - now intros -> -> -> -> ->.
  - now intros -> -> -> -> -> ->.
  - intros -> -> -> -> -> ->. cbn [orb].
    split; [|split; [|split; [|split]]].
    + intros [-> | ->]; reflexivity.
    + now intros ->.
    + intros [-> | ->]; reflexivity.
    + now intros ->.
    + intros Hnot.
      repeat match goal with
             | |- context [Z.eqb (month d) ?k] =>
                 destruct (Z.eqb_spec (month d) k) as [E|_];
                 [exfalso; apply Hnot; rewrite E; cbn [In]; tauto|]
             end.
      reflexivity.
Qed.

End LiturgicalClaims.

Section LiturgicalExamples.

Import Scraper Examples.

Lemma liturgical_color_rule_witness :
  _get_liturgical_color no_case_table (lit "Advent")
    (Some (lit "Feast of the Visitation of the Blessed Virgin MARY"))
  = lit "white"
  /\ _get_liturgical_color no_case_table (lit "Advent")
       (Some (lit "Solemnity of Saint Joseph")) = lit "purple".
Proof.
  split.
  - apply (proj1 (proj1 (liturgical_color_rule no_case_table) (lit "Advent")
                    (Some (lit "Feast of the Visitation of the Blessed Virgin MARY")))
             (lit "Feast of the Visitation of the Blessed Virgin MARY")
             eq_refl).
    left. reflexivity.
  - apply (proj2 (proj1 (liturgical_color_rule no_case_table) (lit "Advent")
                    (Some (lit "Solemnity of Saint Joseph")))).
    + right. eexists. repeat split; reflexivity.
    + left. reflexivity.
Defined.

Lemma season_rule_witness :
  _determine_season no_case_table
    (lit "Memorial of Saint Lucy, Virgin and Martyr") december_13
  = lit "Advent"
  /\ _determine_season no_case_table (lit "Ash Wednesday") (mkDate 2026 2 18)
     = lit "Lent"
  /\ _determine_season no_case_table
       (lit "Friday of the Second Week of Easter") (mkDate 2026 4 17)
     = lit "Easter".
Proof.
  split; [|split].
  - destruct (season_rule no_case_table
                (lit "Memorial of Saint Lucy, Virgin and Martyr") december_13)
      as (_ & _ & _ & _ & _ & Hmonth).
    apply Hmonth; try reflexivity. right. reflexivity.
  - destruct (season_rule no_case_table (lit "Ash Wednesday")
                (mkDate 2026 2 18))
      as (_ & _ & Hlent & _).
    apply Hlent; try reflexivity. right. reflexivity.
  - destruct (season_rule no_case_table
                (lit "Friday of the Second Week of Easter")
                (mkDate 2026 4 17))
      as (_ & _ & _ & Heaster & _).
    apply Heaster; reflexivity.
Defined.

End LiturgicalExamples.

(** ** Claims about the extractor *)

Section PsalmScan.

Import Scraper.

Lemma response_nonempty (text : pystr) :
  is_response text = true -> is_empty text = false.
Proof. destruct text; [discriminate|reflexivity]. Qed.

Lemma psalm_step_marked (response text : pystr) (text_parts : list pystr) :
  is_response text = true ->
  psalm_step (response, text_parts) text
  = ((if is_empty response then text else response), text_parts ++ [text]).
Proof. intros Hr. unfold psalm_step. now rewrite Hr. Qed.

Lemma psalm_step_plain (response text : pystr) (text_parts : list pystr) :
  is_response text = false ->
  psalm_step (response, text_parts) text
  = (response, if nonempty text then text_parts ++ [text] else text_parts).
Proof.
  intros Hr. unfold psalm_step, nonempty. rewrite Hr.
  now destruct (is_empty text).
Qed.

(** The loop of [_extract_psalm], from any state. *)
Lemma psalm_scan_from (texts : list pystr) :
  forall response text_parts,
    fold_left psalm_step texts (response, text_parts)
    = (if is_empty response then first_response texts else response,
       text_parts ++ filter nonempty texts).
Proof.
  induction texts as [|text texts IH]; intros response text_parts.
  - cbn [fold_left filter]. rewrite app_nil_r.
    unfold first_response. cbn [find]. now destruct response.
  - cbn [fold_left filter]. unfold first_response at 1. cbn [find].
    destruct (is_response text) eqn:Hr.
    + rewrite psalm_step_marked, IH by exact Hr.
      pose proof (@response_nonempty text Hr) as Ht.
      unfold nonempty at 2. rewrite Ht. cbn [negb].
      rewrite <- app_assoc. f_equal.
      destruct (is_empty response) eqn:Er; [now rewrite Ht|now rewrite Er].
    + rewrite psalm_step_plain, IH by exact Hr. fold (first_response texts).
      destruct (nonempty text); [now rewrite <- app_assoc|reflexivity].
Qed.

Lemma psalm_scan_spec (texts : list pystr) :
  psalm_scan texts = (first_response texts, filter nonempty texts).
Proof. unfold psalm_scan. now rewrite psalm_scan_from. Qed.

Lemma first_response_none (texts : list pystr) :
  (forall p, In p texts -> is_response p = false) ->
  first_response texts = [].
Proof.
  intros H. unfold first_response.
  destruct (find is_response texts) as [p|] eqn:E; [|reflexivity].
  apply find_some in E as [Hin Hr]. rewrite (H p Hin) in Hr. discriminate.
Qed.

(** A joined part is a piece of the joined text. *)
Lemma join_part (sep p : pystr) (parts : list pystr) :
  In p parts -> exists pre post, join sep parts = pre ++ p ++ post.
Proof.
  induction parts as [|q parts IH]; [contradiction|].
  intros [->|Hin].
  - destruct parts as [|r parts].
    + exists [], []. cbn [join app]. now rewrite app_nil_r.
    + exists [], (sep ++ join sep (r :: parts)). reflexivity.
  - destruct parts as [|r parts]; [contradiction|].
    destruct (IH Hin) as (pre & post & E).
    exists (q ++ sep ++ pre), post.
    change (join sep (q :: r :: parts))
      with (q ++ sep ++ join sep (r :: parts)).
    rewrite E. now rewrite <- !app_assoc.
Qed.

End PsalmScan.

Section ExtractorClaims.

Import Scraper.

Context {tag : Type} `{Soup tag}.

(** What [_extract_reading] returns has a text that is not empty. *)
Lemma extract_reading_text (soup : tag) (reading_type : pystr)
    (section : pyval) :
  _extract_reading soup reading_type = Some section ->
  exists text,
    py_getitem section (lit "text") = Ok (PStr text) /\ text <> [].
Proof.
  unfold _extract_reading, extract_reading_body.
  destruct (locate_section soup reading_type) as [[located|]|e];
    cbn [bind]; try discriminate.
  destruct (join paragraph_sep (reading_parts (find_all_p located)))
    as [|c text] eqn:E; cbn [is_empty]; [discriminate|].
  intros [= <-]. exists (c :: text). split; [reflexivity|discriminate].
Qed.

(** Once the psalm block is located a record is returned, whatever its
    text. *)
Lemma extract_psalm_located (soup header section : tag) :
  find_h3 PsalmHeading soup = Some header ->
  find_next_content_body header = Some section ->
  _extract_psalm soup
  = Some (PDict
      [ (lit "reference", PStr (citation_of section));
        (lit "citation", PStr (citation_of section));
        (lit "text",
           PStr (join paragraph_sep
                   (filter nonempty (paragraph_texts section))));
        (lit "response", PStr (first_response (paragraph_texts section)));
        (lit "title", PStr (lit "Responsorial Psalm"));
        (lit "audioUrl", PNone) ]).
Proof.
  intros Hh Hs. unfold _extract_psalm.
  now rewrite Hh, Hs, psalm_scan_spec.
Qed.

(** A located psalm block without text still gives a record, with the
    empty text. *)
Lemma extract_psalm_empty_block (soup header section : tag) :
  find_h3 PsalmHeading soup = Some header ->
  find_next_content_body header = Some section ->
  Forall (fun text => text = []) (paragraph_texts section) ->
  exists psalm,
    _extract_psalm soup = Some (PDict psalm)
    /\ dict_get (lit "text") psalm = Some (PStr []).
Proof.
  intros Hh Hs Hempty.
  rewrite (@extract_psalm_located soup header section Hh Hs).
  eexists. split; [reflexivity|].
  replace (filter nonempty (paragraph_texts section)) with (@nil pystr);
    [reflexivity|].
  induction Hempty as [|text texts -> _ IH]; [reflexivity|exact IH].
Qed.

(** C9: the response of an extracted psalm is the first paragraph that
    begins with ['R.'] or with the response sign U+211F and a period, and
    the empty string when no paragraph does; the text joins all the
    paragraphs that are not empty, so every marked paragraph is one of the
    joined parts and a piece of the text. *)
Theorem psalm_response_rule (soup header section : tag) :
  find_h3 PsalmHeading soup = Some header ->
  find_next_content_body header = Some section ->
  let texts := paragraph_texts section in
  exists psalm response text,
    _extract_psalm soup = Some (PDict psalm)
    /\ dict_get (lit "response") psalm = Some (PStr response)
    /\ dict_get (lit "text") psalm = Some (PStr text)
    /\ response = first_response texts
    /\ text = join paragraph_sep (filter nonempty texts)
    /\ (forall p,
           In p texts -> is_response p = true ->
           In p (filter nonempty texts)
           /\ exists pre post, text = pre ++ p ++ post)
    /\ ((forall p, In p texts -> is_response p = false) -> response = []).
Proof.
  intros Hh Hs texts.
  eexists _, _, _. split; [apply (@extract_psalm_located soup header section Hh Hs)|].
  split; [reflexivity|]. split; [reflexivity|].
  split; [reflexivity|]. split; [reflexivity|]. split.
  - intros p Hin Hr.
    assert (Hp : In p (filter nonempty texts)).
    { apply filter_In. split; [exact Hin|].
      unfold nonempty. now rewrite (@response_nonempty p Hr). }
    split; [exact Hp|]. now apply join_part.
  - apply first_response_none.
Qed.

(** C10: in a section that the extractor returns, [reference] and
    [citation] hold the same string. *)
Theorem reference_equals_citation (soup : tag) (section : pyval) :
  (exists reading_type, _extract_reading soup reading_type = Some section)
  \/ _extract_psalm soup = Some section ->
  exists citation,
    py_getitem section (lit "reference") = Ok (PStr citation)
    /\ py_getitem section (lit "citation") = Ok (PStr citation).
Proof.
  intros [[reading_type E]|E].
  - unfold _extract_reading, extract_reading_body in E.
    destruct (locate_section soup reading_type) as [[located|]|e];
      cbn [bind] in E; try discriminate.
    destruct (is_empty _); [discriminate|].
    injection E as <-. eexists. split; reflexivity.
  - unfold _extract_psalm in E.
    destruct (find_h3 PsalmHeading soup) as [header|]; [|discriminate].
    destruct (find_next_content_body header) as [located|]; [|discriminate].
    destruct (psalm_scan _) as [response text_parts].
    injection E as <-. eexists. split; reflexivity.
Qed.

End ExtractorClaims.

Section ExtractorExamples.

Import Scraper FlatPage Examples.

(** C8: on a page whose psalm block has no text, [_extract_psalm]
    returns a record with the empty text, where [_extract_reading] on the
    same block under a gospel heading returns [None]. *)
Theorem extract_psalm_keeps_empty_text :
  _extract_psalm empty_psalm_page
  = Some (PDict
      [ (lit "reference", PStr (lit "Ps 137:1-6"));
        (lit "citation", PStr (lit "Ps 137:1-6"));
        (lit "text", PStr []);
        (lit "response", PStr []);
        (lit "title", PStr (lit "Responsorial Psalm"));
        (lit "audioUrl", PNone) ])
  /\ _extract_reading empty_gospel_page (lit "gospel") = None.
Proof. split; vm_compute; reflexivity. Qed.

Lemma psalm_response_rule_witness :
  exists psalm response text,
    _extract_psalm sample_page = Some (PDict psalm)
    /\ dict_get (lit "response") psalm = Some (PStr response)
    /\ dict_get (lit "text") psalm = Some (PStr text)
    /\ response = lit "R. Let my tongue be silenced"
    /\ text = join paragraph_sep
                [ lit "R. Let my tongue be silenced";
                  lit "By the streams of Babylon";
                  lit "R. Let my tongue be silenced" ].
Proof.
  destruct (@psalm_response_rule ptag flat_soup sample_page
              sample_psalm_header sample_psalm_section eq_refl eq_refl)
    as (psalm & response & text & E & Er & Et & Hr & Ht & _).
  exists psalm, response, text.
  split; [exact E|]. split; [exact Er|]. split; [exact Et|].
  split; [exact Hr|exact Ht].
Defined.

Lemma reference_equals_citation_witness :
  exists citation,
    py_getitem
      (PDict
         [ (lit "reference", PStr (lit "Luke 9:57-62"));
           (lit "citation", PStr (lit "Luke 9:57-62"));
           (lit "text",
              PStr (lit "As Jesus and his disciples were proceeding"
                    ++ paragraph_sep ++ lit "Follow me."));
           (lit "title", PStr (lit "Gospel"));
           (lit "audioUrl", PNone) ])
      (lit "reference") = Ok (PStr citation)
    /\ py_getitem
         (PDict
            [ (lit "reference", PStr (lit "Luke 9:57-62"));
              (lit "citation", PStr (lit "Luke 9:57-62"));
              (lit "text",
                 PStr (lit "As Jesus and his disciples were proceeding"
                       ++ paragraph_sep ++ lit "Follow me."));
              (lit "title", PStr (lit "Gospel"));
              (lit "audioUrl", PNone) ])
         (lit "citation") = Ok (PStr citation).
Proof.
  apply (@reference_equals_citation ptag flat_soup sample_page).
  left. exists (lit "gospel"). vm_compute. reflexivity.
Defined.

End ExtractorExamples.
